(** * Stubby: the Windows service shim (src/windows/service.c)

    A shallow embedding of the service-control glue of Stubby: the
    command dispatcher, the installer and uninstaller, the start/stop
    clients, the service entry point with its run loop, the status
    reporter, the control handler and the event-log bridge.

    The C code lives on process-wide globals and on calls into the
    operating system and into the getdns library.  The globals are the
    fields of [world]; every external call is appended, in program
    order, to the [calls] field; what an external call answers is read
    from an [env] record (one answer per call site, a script of answers
    for the poll of the run loop).  [exit] ends the process: functions
    run in a state monad whose outcome is a return, a process exit or a
    run loop that is still turning when the script of polls ends. *)

From Stdlib Require Import ZArith List String Ascii Bool Lia Sorted.
Import ListNotations.

Open Scope string_scope.
Open Scope list_scope.
Open Scope Z_scope.

(** ** Machine types and the constants of the headers *)

Definition DWORD := Z.
Definition HANDLE := Z.
Definition LSTATUS := Z.
Definition NULL : HANDLE := 0.

Definition DWORD_modulus : Z := 4294967296.

(** Arithmetic on a [DWORD] wraps. *)
Definition DWORD_of (z : Z) : DWORD := z mod DWORD_modulus.

(** winsvc.h *)
Definition SERVICE_STOPPED : DWORD := 1.
Definition SERVICE_START_PENDING : DWORD := 2.
Definition SERVICE_STOP_PENDING : DWORD := 3.
Definition SERVICE_RUNNING : DWORD := 4.
Definition SERVICE_ACCEPT_STOP : DWORD := 1.
Definition SERVICE_CONTROL_STOP : DWORD := 1.
Definition SERVICE_CONTROL_INTERROGATE : DWORD := 4.
Definition SERVICE_WIN32_OWN_PROCESS : DWORD := 16.
Definition SERVICE_DEMAND_START : DWORD := 3.
Definition SERVICE_ERROR_NORMAL : DWORD := 1.
Definition SERVICE_ALL_ACCESS : DWORD := 983551.
Definition SC_MANAGER_ALL_ACCESS : DWORD := 983103.
Definition SERVICE_START : DWORD := 16.
Definition SERVICE_STOP : DWORD := 32.
Definition SERVICE_CONFIG_DESCRIPTION : DWORD := 1.

(** winnt.h, winbase.h, winerror.h *)
Definition DELETE : DWORD := 65536.
Definition KEY_WRITE : DWORD := 131078.
Definition REG_OPTION_NON_VOLATILE : DWORD := 0.
Definition REG_EXPAND_SZ : DWORD := 2.
Definition REG_DWORD : DWORD := 4.
Definition ERROR_SUCCESS : LSTATUS := 0.
Definition EVENTLOG_ERROR_TYPE : Z := 1.
Definition EVENTLOG_WARNING_TYPE : Z := 2.
Definition EVENTLOG_INFORMATION_TYPE : Z := 4.
Definition WAIT_OBJECT_0 : DWORD := 0.
Definition WAIT_TIMEOUT : DWORD := 258.
Definition WAIT_FAILED : DWORD := 4294967295.
Definition MAX_PATH : Z := 260.

(** stdlib.h *)
Definition EXIT_SUCCESS : Z := 0.
Definition EXIT_FAILURE : Z := 1.

(** getdns_extra.h: [getdns_loglevel_type] *)
Definition GETDNS_LOG_EMERG : Z := 0.
Definition GETDNS_LOG_ALERT : Z := 1.
Definition GETDNS_LOG_CRIT : Z := 2.
Definition GETDNS_LOG_ERR : Z := 3.
Definition GETDNS_LOG_WARNING : Z := 4.
Definition GETDNS_LOG_NOTICE : Z := 5.
Definition GETDNS_LOG_INFO : Z := 6.
Definition GETDNS_LOG_DEBUG : Z := 7.

Definition SVCNAME : string := "Stubby".

(** What [WaitForSingleObject] with a zero timeout answers for a live
    manual-reset event: [WAIT_OBJECT_0] when it is signaled,
    [WAIT_TIMEOUT] when it is not. *)
Definition poll_of_event (signaled : bool) : DWORD :=
  if signaled then WAIT_OBJECT_0 else WAIT_TIMEOUT.

(** ** The service status record *)

Record SERVICE_STATUS := mkStatus {
  dwServiceType : DWORD;
  dwCurrentState : DWORD;
  dwControlsAccepted : DWORD;
  dwWin32ExitCode : DWORD;
  dwServiceSpecificExitCode : DWORD;
  dwCheckPoint : DWORD;
  dwWaitHint : DWORD
}.

Definition zero_status : SERVICE_STATUS := mkStatus 0 0 0 0 0 0 0.

(** ** External calls *)

Inductive stream := Stdout | Stderr.

Inductive fmtarg :=
| ArgStr (s : string)
| ArgInt (n : Z)
| ArgStrerror.   (* the string [stubby_getdns_strerror] returned *)

(** One constructor per external function the file calls.  Format
    strings are kept as the C source spells them. *)
Inductive call :=
| Cfprintf (f : stream) (fmt : string) (args : list fmtarg)
| CGetLastError
| CFormatMessage (err : DWORD)
| Cstubby_error (fmt : string) (args : list fmtarg)
| Cstubby_debug (fmt : string)
| Cstubby_getdns_strerror (args : list Z)
| CRegisterEventSource (source : string)
| CReportEvent (h : HANDLE) (eventType category eventId : Z)
               (strings : list string)
| CDeregisterEventSource (h : HANDLE)
| CStartServiceCtrlDispatcher (service : string)
| CRegCreateKeyEx (key : string) (access : DWORD)
| CRegSetValueEx (name : string) (type : DWORD) (value : fmtarg) (len : Z)
| CRegDeleteKey (name : string)
| CRegCloseKey
| CGetModuleFileName
| COpenSCManager (access : DWORD)
| CCreateService (name display : string) (cmd : string)
| CChangeServiceConfig2 (description : string)
| COpenService (name : string) (access : DWORD)
| CDeleteService
| CStartService (args : list string)
| CControlService (control : DWORD)
| CCloseServiceHandle (h : HANDLE)
| Cstubby_set_log_funcs
| CRegisterServiceCtrlHandler (name : string)
| CSetServiceStatus (h : HANDLE) (st : SERVICE_STATUS)
| CCreateEvent (manual_reset initial : bool)
| CSetEvent (h : HANDLE)
| CWaitForSingleObject (h : HANDLE) (timeout : DWORD)
| CCloseHandle (h : HANDLE)
| Cgetdns_context_create (set_from_os : Z)
| Cstubby_set_getdns_logging (context : Z) (level : Z)
| Cinit_config (context : Z)
| Cread_config (context : Z)
| Cserver_listen (context : Z) (validate_dnssec : Z)
| Cgetdns_context_get_eventloop (context : Z)
| Crun_once (eventloop : Z) (blocking : Z)
| Cgetdns_context_destroy (context : Z)
| Cdelete_config.

(** ** The process state *)

Record world := mkWorld {
  gSvcStatus : SERVICE_STATUS;
  gSvcStatusHandle : HANDLE;
  ghSvcStopEvent : HANDLE;
  dnssec_validation : Z;
  (** [static DWORD dwCheckPoint] of [ReportSvcStatus] *)
  ReportSvcStatus_dwCheckPoint : DWORD;
  (** the two registrations the installer manages *)
  os_eventlog_key : bool;
  os_service : bool;
  calls : list call
}.

(** The globals as the loader leaves them; the machine has neither
    registration. *)
Definition init_world : world :=
  mkWorld zero_status 0 NULL 0 1 false false [].

(** What the external calls answer. *)
Record env := mkEnv {
  o_GetLastError : DWORD;
  o_FormatMessage : DWORD -> option string;
  o_RegisterEventSource : HANDLE;
  o_StartServiceCtrlDispatcher : bool;
  o_RegCreateKeyEx : string -> LSTATUS;
  o_RegSetValueEx : string -> LSTATUS;
  o_RegDeleteKey : LSTATUS;
  o_GetModuleFileName : string;        (* the path copied; empty on failure *)
  o_OpenSCManager : HANDLE;
  o_CreateService : HANDLE;
  o_OpenService : HANDLE;
  o_DeleteService : bool;
  o_StartService : bool;
  o_ControlService : bool;
  o_RegisterServiceCtrlHandler : HANDLE;
  o_CreateEvent : HANDLE;
  o_getdns_context_create : Z * Z;      (* return code, context *)
  o_read_config : Z * Z;                (* result, validate_dnssec *)
  o_server_listen : Z;
  o_getdns_context_get_eventloop : Z * Z; (* return code, event loop *)
  o_WaitForSingleObject : list DWORD
}.

(** ** The monad *)

Inductive outcome (A : Type) :=
| Ret (a : A)
| Exited (code : Z)
| Pending.
Arguments Ret {A} a.
Arguments Exited {A} code.
Arguments Pending {A}.

Definition M (A : Type) : Type := world -> outcome A * world.

Definition ret {A} (a : A) : M A := fun w => (Ret a, w).

Definition bind {A B} (m : M A) (k : A -> M B) : M B :=
  fun w =>
    match m w with
    | (Ret a, w') => k a w'
    | (Exited c, w') => (Exited c, w')
    | (Pending, w') => (Pending, w')
    end.

Definition exit {A} (code : Z) : M A := fun w => (Exited code, w).
Definition pending {A} : M A := fun w => (Pending, w).
Definition get {A} (f : world -> A) : M A := fun w => (Ret (f w), w).
Definition modify (f : world -> world) : M unit := fun w => (Ret tt, f w).

Notation "x <- m ;; k" := (bind m (fun x => k))
  (at level 61, m at next level, right associativity).
Notation "m ;; k" := (bind m (fun _ => k))
  (at level 61, right associativity).

(** Field updates. *)
Definition set_gSvcStatus (st : SERVICE_STATUS) (w : world) : world :=
  mkWorld st (gSvcStatusHandle w) (ghSvcStopEvent w) (dnssec_validation w)
          (ReportSvcStatus_dwCheckPoint w) (os_eventlog_key w) (os_service w)
          (calls w).
Definition set_gSvcStatusHandle (h : HANDLE) (w : world) : world :=
  mkWorld (gSvcStatus w) h (ghSvcStopEvent w) (dnssec_validation w)
          (ReportSvcStatus_dwCheckPoint w) (os_eventlog_key w) (os_service w)
          (calls w).
Definition set_ghSvcStopEvent (h : HANDLE) (w : world) : world :=
  mkWorld (gSvcStatus w) (gSvcStatusHandle w) h (dnssec_validation w)
          (ReportSvcStatus_dwCheckPoint w) (os_eventlog_key w) (os_service w)
          (calls w).
Definition set_dwCheckPoint (n : DWORD) (w : world) : world :=
  mkWorld (gSvcStatus w) (gSvcStatusHandle w) (ghSvcStopEvent w)
          (dnssec_validation w) n (os_eventlog_key w) (os_service w) (calls w).
Definition set_os_eventlog_key (b : bool) (w : world) : world :=
  mkWorld (gSvcStatus w) (gSvcStatusHandle w) (ghSvcStopEvent w)
          (dnssec_validation w) (ReportSvcStatus_dwCheckPoint w) b
          (os_service w) (calls w).
Definition set_os_service (b : bool) (w : world) : world :=
  mkWorld (gSvcStatus w) (gSvcStatusHandle w) (ghSvcStopEvent w)
          (dnssec_validation w) (ReportSvcStatus_dwCheckPoint w)
          (os_eventlog_key w) b (calls w).
Definition set_calls (cs : list call) (w : world) : world :=
  mkWorld (gSvcStatus w) (gSvcStatusHandle w) (ghSvcStopEvent w)
          (dnssec_validation w) (ReportSvcStatus_dwCheckPoint w)
          (os_eventlog_key w) (os_service w) cs.
Definition log (c : call) (w : world) : world :=
  set_calls (calls w ++ [c]) w.

(** An external call: recorded, no answer used. *)
Definition do_call (c : call) : M unit := modify (log c).

(** ** ReportSvcStatus *)

(** The test [dwCurrentState == SERVICE_RUNNING || dwCurrentState ==
    SERVICE_STOPPED]. *)
Definition steady_state (state : DWORD) : bool :=
  (state =? SERVICE_RUNNING) || (state =? SERVICE_STOPPED).

Definition ReportSvcStatus (dwCurrentState' dwWin32ExitCode' dwWaitHint' : DWORD)
  : M unit :=
  st <- get gSvcStatus ;;
  cp <- get ReportSvcStatus_dwCheckPoint ;;
  let accepted :=
    if dwCurrentState' =? SERVICE_START_PENDING then 0
    else SERVICE_ACCEPT_STOP in
  let steady := steady_state dwCurrentState' in
  let st' :=
    mkStatus (dwServiceType st) dwCurrentState' accepted dwWin32ExitCode'
             (dwServiceSpecificExitCode st)
             (if steady then 0 else cp)
             dwWaitHint' in
  modify (set_gSvcStatus st') ;;
  (if steady then ret tt
   else modify (set_dwCheckPoint (DWORD_of (cp + 1)))) ;;
  h <- get gSvcStatusHandle ;;
  do_call (CSetServiceStatus h st').

(** ** SvcCtrlHandler *)

Definition SvcCtrlHandler (dwCtrl : DWORD) : M unit :=
  if dwCtrl =? SERVICE_CONTROL_STOP then
    ReportSvcStatus SERVICE_STOP_PENDING 0 0 ;;
    h <- get ghSvcStopEvent ;;
    do_call (CSetEvent h)
  else if dwCtrl =? SERVICE_CONTROL_INTERROGATE then ret tt
  else ret tt.

(** An external call whose answer the program reads. *)
Definition external {A} (c : call) (answer : A) : M A :=
  do_call c ;; ret answer.

(** ** C strings *)

(** [snprintf] and [vsnprintf] into a buffer of [size] bytes keep the
    first [size - 1] characters of the expansion. *)
Definition snprintf (size : Z) (expansion : string) : string :=
  substring 0 (Z.to_nat (size - 1)) expansion.

Definition strlen (s : string) : Z := Z.of_nat (String.length s).

Definition dquote : string := String (ascii_of_nat 34) EmptyString.
Definition backslash : string := String (ascii_of_nat 92) EmptyString.

(** [char] is signed on the Windows compilers. *)
Definition char_to_int (c : ascii) : Z :=
  let n := Z.of_nat (nat_of_ascii c) in
  if n <? 128 then n else n - 256.

(** [s[0]] of a C string; the terminator when [s] is empty. *)
Definition first_char (s : string) : Z :=
  match s with
  | EmptyString => 0
  | String c _ => char_to_int c
  end.

(** A one-character C string holding the byte [n mod 256]; it is empty
    when that byte is the terminator. *)
Definition char_string (n : Z) : string :=
  let b := n mod 256 in
  if b =? 0 then EmptyString
  else String (ascii_of_nat (Z.to_nat b)) EmptyString.

Definition tolower (c : ascii) : ascii :=
  let n := nat_of_ascii c in
  if (Nat.leb 65 n && Nat.leb n 90)%bool then ascii_of_nat (n + 32) else c.

Fixpoint lower (s : string) : string :=
  match s with
  | EmptyString => EmptyString
  | String c s' => String (tolower c) (lower s')
  end.

(** [lstrcmpi]: comparison that ignores letter case.  The program only
    tests the result against zero. *)
Definition lstrcmpi (a b : string) : Z :=
  match String.compare (lower a) (lower b) with
  | Eq => 0
  | Lt => -1
  | Gt => 1
  end.

(** ** winerr, winlasterr *)

(** The parameter [err] is a [DWORD]: the signed [LSTATUS] that the
    registry functions hand over is converted on the call. *)
Definition winerr {A} (e : env) (operation : string) (status : Z) : M A :=
  let err := DWORD_of status in
  msg <- external (CFormatMessage err) (o_FormatMessage e err) ;;
  match msg with
  | None =>
      do_call (Cfprintf Stderr "Error: %s: errno=%d\n"
                        [ArgStr operation; ArgInt err])
  | Some m =>
      do_call (Cfprintf Stderr "Error: %s: %s\n" [ArgStr operation; ArgStr m])
  end ;;
  exit EXIT_FAILURE.

Definition winlasterr {A} (e : env) (operation : string) : M A :=
  err <- external CGetLastError (o_GetLastError e) ;;
  winerr e operation err.

(** ** The event-log bridge *)

(** The event identifiers [SVC_EMERGENCY] .. [SVC_DEBUG] come from
    windowsservice.h, which the message compiler generates and which is
    not among the sources at hand.  They are a parameter of the
    bridge. *)
Record event_ids := mkIds {
  SVC_EMERGENCY : DWORD;
  SVC_ALERT : DWORD;
  SVC_CRITICAL : DWORD;
  SVC_ERROR : DWORD;
  SVC_WARNING : DWORD;
  SVC_NOTICE : DWORD;
  SVC_INFO : DWORD;
  SVC_DEBUG : DWORD
}.

(** Modelled from the spec: the values of the identifiers, declared in
    the missing windowsservice.h, are "distinct numeric event
    identifiers per severity". *)
Definition distinct_ids (ids : event_ids) : Prop :=
  NoDup [SVC_EMERGENCY ids; SVC_ALERT ids; SVC_CRITICAL ids; SVC_ERROR ids;
         SVC_WARNING ids; SVC_NOTICE ids; SVC_INFO ids; SVC_DEBUG ids].

(** The [switch (level)] of [report_verror]: event type and identifier. *)
Definition event_of_level (ids : event_ids) (level : Z) : Z * DWORD :=
  if level =? GETDNS_LOG_EMERG then (EVENTLOG_ERROR_TYPE, SVC_EMERGENCY ids)
  else if level =? GETDNS_LOG_ALERT then (EVENTLOG_ERROR_TYPE, SVC_ALERT ids)
  else if level =? GETDNS_LOG_CRIT then (EVENTLOG_ERROR_TYPE, SVC_CRITICAL ids)
  else if level =? GETDNS_LOG_ERR then (EVENTLOG_ERROR_TYPE, SVC_ERROR ids)
  else if level =? GETDNS_LOG_WARNING then
    (EVENTLOG_WARNING_TYPE, SVC_WARNING ids)
  else if level =? GETDNS_LOG_NOTICE then
    (EVENTLOG_WARNING_TYPE, SVC_NOTICE ids)
  else if level =? GETDNS_LOG_INFO then
    (EVENTLOG_INFORMATION_TYPE, SVC_INFO ids)
  else (EVENTLOG_INFORMATION_TYPE, SVC_DEBUG ids).

(** [expansion] is what [fmt] and [ap] expand to. *)
Definition report_verror (ids : event_ids) (e : env) (level : Z)
           (expansion : string) : M unit :=
  hEventSource <- external (CRegisterEventSource SVCNAME)
                           (o_RegisterEventSource e) ;;
  if hEventSource =? NULL then ret tt
  else
    let '(eventType, eventId) := event_of_level ids level in
    let buf := snprintf 256 expansion in
    do_call (CReportEvent hEventSource eventType 0 eventId [SVCNAME; buf]) ;;
    do_call (CDeregisterEventSource hEventSource).

Definition report_vlog (ids : event_ids) (e : env) (userarg system : Z)
           (level : Z) (expansion : string) : M unit :=
  report_verror ids e level expansion.

Definition report_winerr (e : env) (operation : string) : M unit :=
  err <- external CGetLastError (o_GetLastError e) ;;
  msg <- external (CFormatMessage err) (o_FormatMessage e err) ;;
  match msg with
  | None =>
      do_call (Cstubby_error "Error: %s: errno=%d\n"
                             [ArgStr operation; ArgInt err])
  | Some m =>
      do_call (Cstubby_error "Error: %s: %s\n" [ArgStr operation; ArgStr m])
  end.

Definition report_getdnserr (operation : string) : M unit :=
  do_call (Cstubby_getdns_strerror []) ;;
  do_call (Cstubby_error "%s: %s" [ArgStr operation; ArgStrerror]).

(** ** SvcService *)

Definition SvcService (e : env) : M unit :=
  ok <- external (CStartServiceCtrlDispatcher SVCNAME)
                 (o_StartServiceCtrlDispatcher e) ;;
  if negb ok then report_winerr e "StartServiceCtrlDispatcher" else ret tt.

(** ** The registry and the service database *)

Definition eventlog_application : string :=
  "SYSTEM\CurrentControlSet\Services\EventLog\Application".

Definition eventlog_key : string :=
  snprintf 512 (eventlog_application ++ backslash ++ SVCNAME)%string.

(** A successful [RegCreateKeyEx] leaves the key present. *)
Definition RegCreateKeyEx (e : env) (key : string) (access : DWORD)
  : M LSTATUS :=
  status <- external (CRegCreateKeyEx key access) (o_RegCreateKeyEx e key) ;;
  (if ((status =? ERROR_SUCCESS) && String.eqb key eventlog_key)%bool
   then modify (set_os_eventlog_key true) else ret tt) ;;
  ret status.

Definition RegSetValueEx (e : env) (name : string) (type : DWORD)
           (value : fmtarg) (len : Z) : M LSTATUS :=
  external (CRegSetValueEx name type value len) (o_RegSetValueEx e name).

(** A successful [RegDeleteKey] of the service's subkey removes it. *)
Definition RegDeleteKey (e : env) (name : string) : M LSTATUS :=
  status <- external (CRegDeleteKey name) (o_RegDeleteKey e) ;;
  (if ((status =? ERROR_SUCCESS) && String.eqb name SVCNAME)%bool
   then modify (set_os_eventlog_key false) else ret tt) ;;
  ret status.

(** A successful [CreateService] registers the service. *)
Definition CreateService (e : env) (cmd : string) : M HANDLE :=
  h <- external (CCreateService SVCNAME "Stubby Secure DNS Proxy" cmd)
                (o_CreateService e) ;;
  (if h =? NULL then ret tt else modify (set_os_service true)) ;;
  ret h.

(** A successful [DeleteService] removes the registration. *)
Definition DeleteService (e : env) : M bool :=
  ok <- external CDeleteService (o_DeleteService e) ;;
  (if ok then modify (set_os_service false) else ret tt) ;;
  ret ok.

Definition createRegistryEntries (e : env) (path : string) : M unit :=
  status <- RegCreateKeyEx e eventlog_key KEY_WRITE ;;
  (if negb (status =? ERROR_SUCCESS)
   then winerr e "Create registry key" status else ret tt) ;;
  status <- RegSetValueEx e "EventMessageFile" REG_EXPAND_SZ (ArgStr path)
                          (strlen path + 1) ;;
  (if negb (status =? ERROR_SUCCESS)
   then do_call CRegCloseKey ;; winerr e "Set EventMessageFile" status
   else ret tt) ;;
  status <- RegSetValueEx e "CategoryMessageFile" REG_EXPAND_SZ (ArgStr path)
                          (strlen path + 1) ;;
  (if negb (status =? ERROR_SUCCESS)
   then do_call CRegCloseKey ;; winerr e "Set CategoryMessageFile" status
   else ret tt) ;;
  let t := Z.lor (Z.lor EVENTLOG_ERROR_TYPE EVENTLOG_WARNING_TYPE)
                 EVENTLOG_INFORMATION_TYPE in
  status <- RegSetValueEx e "TypesSupported" REG_DWORD (ArgInt t) 4 ;;
  (if negb (status =? ERROR_SUCCESS)
   then do_call CRegCloseKey ;; winerr e "Set TypesSupported" status
   else ret tt) ;;
  let t := 1 in
  status <- RegSetValueEx e "CategoryCount" REG_DWORD (ArgInt t) 4 ;;
  (if negb (status =? ERROR_SUCCESS)
   then do_call CRegCloseKey ;; winerr e "Set TypesSupported" status
   else ret tt) ;;
  do_call CRegCloseKey.

Definition deleteRegistryEntries (e : env) : M unit :=
  status <- RegCreateKeyEx e eventlog_application DELETE ;;
  (if negb (status =? ERROR_SUCCESS)
   then winerr e "Create registry key" status else ret tt) ;;
  status <- RegDeleteKey e SVCNAME ;;
  (if negb (status =? ERROR_SUCCESS)
   then do_call CRegCloseKey ;; winerr e "Delete registry key" status
   else ret tt) ;;
  do_call CRegCloseKey.

(** ** SvcInstall, SvcRemove, SvcStart, SvcStop *)

Definition OpenSCManager (e : env) : M HANDLE :=
  external (COpenSCManager SC_MANAGER_ALL_ACCESS) (o_OpenSCManager e).

Definition OpenService (e : env) (access : DWORD) : M HANDLE :=
  external (COpenService SVCNAME access) (o_OpenService e).

Definition SvcInstall (e : env) : M unit :=
  let ARG := "-w service" in
  modpath <- external CGetModuleFileName (o_GetModuleFileName e) ;;
  (if strlen modpath =? 0 then winlasterr e "GetModuleFileName" else ret tt) ;;
  let cmd := snprintf (MAX_PATH + 3 + (strlen ARG + 1))
                      (dquote ++ modpath ++ dquote ++ " " ++ ARG)%string in
  createRegistryEntries e modpath ;;
  schSCManager <- OpenSCManager e ;;
  (if schSCManager =? NULL then winlasterr e "Open service manager"
   else ret tt) ;;
  schService <- CreateService e cmd ;;
  (if schService =? NULL
   then do_call (CCloseServiceHandle schSCManager) ;;
        winlasterr e "Create service"
   else ret tt) ;;
  do_call (CChangeServiceConfig2
             "Enable performing DNS name lookups over secure channels.") ;;
  do_call (Cfprintf Stdout "Service installed successfully\n" []) ;;
  do_call (CCloseServiceHandle schService) ;;
  do_call (CCloseServiceHandle schSCManager).

Definition SvcRemove (e : env) : M unit :=
  schSCManager <- OpenSCManager e ;;
  (if schSCManager =? NULL then winlasterr e "Open service manager"
   else ret tt) ;;
  schService <- OpenService e DELETE ;;
  (if schService =? NULL
   then do_call (CCloseServiceHandle schSCManager) ;;
        winlasterr e "Open service"
   else ret tt) ;;
  deleted <- DeleteService e ;;
  (if negb deleted
   then do_call (CCloseServiceHandle schService) ;;
        do_call (CCloseServiceHandle schSCManager) ;;
        winlasterr e "Delete service"
   else ret tt) ;;
  do_call (CCloseServiceHandle schService) ;;
  do_call (CCloseServiceHandle schSCManager) ;;
  deleteRegistryEntries e ;;
  do_call (Cfprintf Stdout "Service removed successfully\n" []).

Definition SvcStart (e : env) (loglevel : Z) : M unit :=
  schSCManager <- OpenSCManager e ;;
  (if schSCManager =? NULL then winlasterr e "Open service manager"
   else ret tt) ;;
  schService <- OpenService e SERVICE_START ;;
  (if schService =? NULL
   then do_call (CCloseServiceHandle schSCManager) ;;
        winlasterr e "Open service"
   else ret tt) ;;
  let loglevelstr := char_string (48 + loglevel) in
  let args := [SVCNAME; loglevelstr] in
  started <- external (CStartService args) (o_StartService e) ;;
  (if negb started
   then do_call (CCloseServiceHandle schService) ;;
        do_call (CCloseServiceHandle schSCManager) ;;
        winlasterr e "Start service"
   else ret tt) ;;
  do_call (CCloseServiceHandle schService) ;;
  do_call (CCloseServiceHandle schSCManager) ;;
  do_call (Cfprintf Stdout "Service started successfully\n" []).

Definition SvcStop (e : env) : M unit :=
  schSCManager <- OpenSCManager e ;;
  (if schSCManager =? NULL then winlasterr e "Open service manager"
   else ret tt) ;;
  schService <- OpenService e SERVICE_STOP ;;
  (if schService =? NULL
   then do_call (CCloseServiceHandle schSCManager) ;;
        winlasterr e "Open service"
   else ret tt) ;;
  stopped <- external (CControlService SERVICE_CONTROL_STOP)
                      (o_ControlService e) ;;
  (if negb stopped
   then do_call (CCloseServiceHandle schService) ;;
        do_call (CCloseServiceHandle schSCManager) ;;
        winlasterr e "Stop service"
   else ret tt) ;;
  do_call (CCloseServiceHandle schService) ;;
  do_call (CCloseServiceHandle schSCManager) ;;
  do_call (Cfprintf Stdout "Service stopped successfully\n" []).

(** ** windows_service_command *)

Definition windows_service_command (e : env) (arg : string) (loglevel : Z)
  : M unit :=
  (if lstrcmpi arg "install" =? 0 then SvcInstall e
   else if lstrcmpi arg "remove" =? 0 then SvcRemove e
   else if lstrcmpi arg "service" =? 0 then SvcService e
   else if lstrcmpi arg "start" =? 0 then SvcStart e loglevel
   else if lstrcmpi arg "stop" =? 0 then SvcStop e
   else
     do_call (Cfprintf Stderr "Unknown Windows option '%s'\n" [ArgStr arg]) ;;
     exit EXIT_FAILURE) ;;
  exit EXIT_SUCCESS.

(** ** SvcInit and SvcMain *)

(** The code after the label [tidy_and_exit]. *)
Definition tidy_and_exit (context : Z) : M unit :=
  do_call (Cgetdns_context_destroy context) ;;
  do_call Cdelete_config ;;
  h <- get ghSvcStopEvent ;;
  do_call (CCloseHandle h) ;;
  modify (set_ghSvcStopEvent NULL).

(** The [switch] on the answer of [WaitForSingleObject]; the result is
    the new value of [more]. *)
Definition poll_switch (e : env) (more : Z) (answer : DWORD) : M Z :=
  if answer =? WAIT_OBJECT_0 then ret more
  else if answer =? WAIT_FAILED then
    report_winerr e "WaitForSingleObject" ;; ret 0
  else
    do_call (Cstubby_debug "Stop object signalled") ;; ret 0.

(** The [for (;;)] loop, one pass per scripted answer of the poll.  The
    loop is still turning when the script ends. *)
Fixpoint run_loop (e : env) (eventloop : Z) (more : Z) (polls : list DWORD)
  : M unit :=
  match polls with
  | [] => pending
  | answer :: polls' =>
      h <- get ghSvcStopEvent ;;
      do_call (CWaitForSingleObject h 0) ;;
      more' <- poll_switch e more answer ;;
      if more' =? 0 then ret tt
      else
        do_call (Crun_once eventloop 1) ;;
        run_loop e eventloop more' polls'
  end.

Definition SvcInit (e : env) (dwArgc : DWORD) (lpszArgv : list string)
  : M unit :=
  let more := 1 in
  h <- external (CCreateEvent true false) (o_CreateEvent e) ;;
  modify (set_ghSvcStopEvent h) ;;
  stop <- get ghSvcStopEvent ;;
  if stop =? NULL then ReportSvcStatus SERVICE_STOPPED 1 0
  else
    ReportSvcStatus SERVICE_START_PENDING 0 1000 ;;
    created <- external (Cgetdns_context_create 1) (o_getdns_context_create e) ;;
    let '(r, context) := created in
    if negb (r =? 0) then
      do_call (Cstubby_getdns_strerror [r]) ;;
      do_call (Cstubby_error "Create context failed: %s" [ArgStrerror]) ;;
      ReportSvcStatus SERVICE_STOPPED 1 0 ;;
      stop <- get ghSvcStopEvent ;;
      do_call (CCloseHandle stop) ;;
      modify (set_ghSvcStopEvent NULL)
    else
      (if 1 <? dwArgc
       then do_call (Cstubby_set_getdns_logging context
                       (first_char (nth 1 lpszArgv EmptyString) - 48))
       else ret tt) ;;
      do_call (Cinit_config context) ;;
      ReportSvcStatus SERVICE_START_PENDING 0 1010 ;;
      read <- external (Cread_config context) (o_read_config e) ;;
      let '(read_ok, validate_dnssec) := read in
      if read_ok =? 0 then
        ReportSvcStatus SERVICE_STOPPED 1 0 ;;
        tidy_and_exit context
      else
        ReportSvcStatus SERVICE_START_PENDING 0 1020 ;;
        flag <- get dnssec_validation ;;
        listening <- external (Cserver_listen context flag)
                              (o_server_listen e) ;;
        if listening =? 0 then
          ReportSvcStatus SERVICE_STOPPED 1 0 ;;
          tidy_and_exit context
        else
          ReportSvcStatus SERVICE_START_PENDING 0 1030 ;;
          got <- external (Cgetdns_context_get_eventloop context)
                          (o_getdns_context_get_eventloop e) ;;
          let '(r, eventloop) := got in
          if negb (r =? 0) then
            report_getdnserr "Get event loop" ;;
            ReportSvcStatus SERVICE_STOPPED 1 0 ;;
            tidy_and_exit context
          else
            ReportSvcStatus SERVICE_RUNNING 0 0 ;;
            run_loop e eventloop more (o_WaitForSingleObject e) ;;
            ReportSvcStatus SERVICE_STOPPED 0 0 ;;
            tidy_and_exit context.

Definition SvcMain (e : env) (dwArgc : DWORD) (lpszArgv : list string)
  : M unit :=
  do_call Cstubby_set_log_funcs ;;
  h <- external (CRegisterServiceCtrlHandler SVCNAME)
                (o_RegisterServiceCtrlHandler e) ;;
  modify (set_gSvcStatusHandle h) ;;
  registered <- get gSvcStatusHandle ;;
  if registered =? NULL then report_winerr e "RegisterServiceCtrlHandler"
  else
    st <- get gSvcStatus ;;
    modify (set_gSvcStatus
              (mkStatus SERVICE_WIN32_OWN_PROCESS (dwCurrentState st)
                        (dwControlsAccepted st) (dwWin32ExitCode st)
                        (dwServiceSpecificExitCode st) (dwCheckPoint st)
                        (dwWaitHint st))) ;;
    st <- get gSvcStatus ;;
    modify (set_gSvcStatus
              (mkStatus (dwServiceType st) (dwCurrentState st)
                        (dwControlsAccepted st) (dwWin32ExitCode st)
                        0 (dwCheckPoint st) (dwWaitHint st))) ;;
    ReportSvcStatus SERVICE_START_PENDING 0 3000 ;;
    SvcInit e dwArgc lpszArgv.

(** ** Vocabulary of the statements *)

(** Format and arguments of the line [winerr] and [report_winerr]
    write: the text of the error when [FormatMessage] finds one, the
    number otherwise. *)
Definition winerr_text (e : env) (operation : string) (err : DWORD)
  : string * list fmtarg :=
  match o_FormatMessage e err with
  | None => ("Error: %s: errno=%d\n", [ArgStr operation; ArgInt err])
  | Some m => ("Error: %s: %s\n", [ArgStr operation; ArgStr m])
  end.

(** The three steps of the teardown. *)
Definition teardown_call (c : call) : bool :=
  match c with
  | Cgetdns_context_destroy _ | Cdelete_config | CCloseHandle _ => true
  | _ => false
  end.

(** The calls the run loop can make. *)
Definition loop_call (c : call) : bool :=
  match c with
  | CWaitForSingleObject _ _ | Crun_once _ _ | CGetLastError
  | CFormatMessage _ | Cstubby_error _ _ | Cstubby_debug _ => true
  | _ => false
  end.

Definition is_run_once (c : call) : bool :=
  match c with Crun_once _ _ => true | _ => false end.

Definition count_calls (p : call -> bool) (cs : list call) : nat :=
  List.length (filter p cs).

(** The status records handed to [SetServiceStatus], in order. *)
Fixpoint statuses_of (cs : list call) : list SERVICE_STATUS :=
  match cs with
  | [] => []
  | CSetServiceStatus _ st :: cs' => st :: statuses_of cs'
  | _ :: cs' => statuses_of cs'
  end.

(** The flags handed to [server_listen], in order. *)
Fixpoint listen_flags (cs : list call) : list Z :=
  match cs with
  | [] => []
  | Cserver_listen _ flag :: cs' => flag :: listen_flags cs'
  | _ :: cs' => listen_flags cs'
  end.

Definition steady (st : SERVICE_STATUS) : bool :=
  steady_state (dwCurrentState st).

(** The checkpoints of the reports whose state is neither [RUNNING] nor
    [STOPPED]. *)
Definition pending_checkpoints (sts : list SERVICE_STATUS) : list DWORD :=
  map dwCheckPoint (filter (fun st => negb (steady st)) sts).

Definition checkpoint_discipline (sts : list SERVICE_STATUS) : Prop :=
  Forall (fun st => dwCheckPoint st = 0 <-> steady st = true) sts /\
  pending_checkpoints sts =
    map Z.of_nat (seq 1 (List.length (pending_checkpoints sts))) /\
  StronglySorted Z.lt (pending_checkpoints sts).

(** A sequence of status reports, whoever makes them. *)
Fixpoint run_reports (l : list (DWORD * DWORD * DWORD)) : M unit :=
  match l with
  | [] => ret tt
  | (state, code, hint) :: l' =>
      ReportSvcStatus state code hint ;; run_reports l'
  end.

(** The number of leading polls that answer [WAIT_OBJECT_0]. *)
Fixpoint leading_signaled (polls : list DWORD) : nat :=
  match polls with
  | [] => O
  | answer :: polls' =>
      if answer =? WAIT_OBJECT_0 then S (leading_signaled polls') else O
  end.

(** How far the startup of [SvcInit] gets under [e]: the first
    checkpoint that fails, or [Started]. *)
Inductive startup :=
| NoEvent | NoContext | NoConfig | NoListener | NoEventLoop | Started.

Definition startup_of (e : env) : startup :=
  if o_CreateEvent e =? NULL then NoEvent
  else if negb (fst (o_getdns_context_create e) =? 0) then NoContext
  else if fst (o_read_config e) =? 0 then NoConfig
  else if o_server_listen e =? 0 then NoListener
  else if negb (fst (o_getdns_context_get_eventloop e) =? 0) then NoEventLoop
  else Started.

(** The run loop leaves when some poll answers other than
    [WAIT_OBJECT_0]. *)
Definition loop_leaves (polls : list DWORD) : bool :=
  negb (forallb (fun answer => answer =? WAIT_OBJECT_0) polls).

Definition is_stopped_report (c : call) : bool :=
  match c with
  | CSetServiceStatus _ st => dwCurrentState st =? SERVICE_STOPPED
  | _ => false
  end.

(** No teardown call follows a [STOPPED] report. *)
Fixpoint teardown_before_stopped (cs : list call) : bool :=
  match cs with
  | [] => true
  | c :: cs' =>
      (if is_stopped_report c then negb (existsb teardown_call cs') else true)
      && teardown_before_stopped cs'
  end.

(** The first call that [p] or [q] holds of is one that [p] holds of:
    no [q] call comes before the first [p] call. *)
Fixpoint first_comes (p q : call -> bool) (cs : list call) : bool :=
  match cs with
  | [] => true
  | c :: cs' =>
      if q c then false else if p c then true else first_comes p q cs'
  end.

Definition creates_eventlog_key (c : call) : bool :=
  match c with
  | CRegCreateKeyEx key _ => String.eqb key eventlog_key
  | _ => false
  end.

Definition creates_service (c : call) : bool :=
  match c with CCreateService _ _ _ => true | _ => false end.

Definition deletes_service (c : call) : bool :=
  match c with CDeleteService => true | _ => false end.

Definition deletes_eventlog_key (c : call) : bool :=
  match c with CRegDeleteKey _ => true | _ => false end.

(** A registered service has its event-log entry. *)
Definition service_has_eventlog (w : world) : bool :=
  implb (os_service w) (os_eventlog_key w).

(** The event-log entry has its registered service. *)
Definition eventlog_has_service (w : world) : bool :=
  implb (os_eventlog_key w) (os_service w).



(** The event class of a severity, in the words of the spec:
    emergency, alert, critical and error are errors; warning and notice
    are warnings; info and everything else is information. *)
Definition spec_event_class (level : Z) : Z :=
  if existsb (Z.eqb level)
       [GETDNS_LOG_EMERG; GETDNS_LOG_ALERT; GETDNS_LOG_CRIT; GETDNS_LOG_ERR]
  then EVENTLOG_ERROR_TYPE
  else if existsb (Z.eqb level) [GETDNS_LOG_WARNING; GETDNS_LOG_NOTICE]
  then EVENTLOG_WARNING_TYPE
  else EVENTLOG_INFORMATION_TYPE.

(** The calls that make or unmake a registration: the registry calls
    on the event-log key and the calls on the service database. *)
Definition registration_call (c : call) : bool :=
  match c with
  | CRegCreateKeyEx _ _ | CRegSetValueEx _ _ _ _ | CRegDeleteKey _
  | CCreateService _ _ _ | CDeleteService => true
  | _ => false
  end.

(** The registration calls of an install that goes all the way, in
    order: the key, its four values, the service with command [cmd]. *)
Definition install_registrations (path cmd : string) : list call :=
  [CRegCreateKeyEx eventlog_key KEY_WRITE;
   CRegSetValueEx "EventMessageFile" REG_EXPAND_SZ (ArgStr path)
                  (strlen path + 1);
   CRegSetValueEx "CategoryMessageFile" REG_EXPAND_SZ (ArgStr path)
                  (strlen path + 1);
   CRegSetValueEx "TypesSupported" REG_DWORD (ArgInt 7) 4;
   CRegSetValueEx "CategoryCount" REG_DWORD (ArgInt 1) 4;
   CCreateService SVCNAME "Stubby Secure DNS Proxy" cmd].

(** The registration calls of a remove that goes all the way. *)
Definition remove_registrations : list call :=
  [CDeleteService; CRegCreateKeyEx eventlog_application DELETE;
   CRegDeleteKey SVCNAME].

(** Under [e] an install gets the event-log key created. *)
Definition install_creates_key (e : env) : bool :=
  if strlen (o_GetModuleFileName e) =? 0 then false
  else o_RegCreateKeyEx e eventlog_key =? ERROR_SUCCESS.

(** Under [e] an install writes the four values of the key. *)
Definition install_writes_values (e : env) : bool :=
  if install_creates_key e then
    if o_RegSetValueEx e "EventMessageFile" =? ERROR_SUCCESS then
      if o_RegSetValueEx e "CategoryMessageFile" =? ERROR_SUCCESS then
        if o_RegSetValueEx e "TypesSupported" =? ERROR_SUCCESS then
          o_RegSetValueEx e "CategoryCount" =? ERROR_SUCCESS
        else false
      else false
    else false
  else false.

(** Under [e] an install gets the service registered. *)
Definition install_creates_service (e : env) : bool :=
  if install_writes_values e then
    if o_OpenSCManager e =? NULL then false
    else negb (o_CreateService e =? NULL)
  else false.

(** Under [e] a remove gets the service registration deleted. *)
Definition remove_deletes_service (e : env) : bool :=
  if o_OpenSCManager e =? NULL then false
  else if o_OpenService e =? NULL then false
  else o_DeleteService e.

(** Under [e] a remove gets the event-log key deleted. *)
Definition remove_deletes_key (e : env) : bool :=
  if remove_deletes_service e then
    if o_RegCreateKeyEx e eventlog_application =? ERROR_SUCCESS then
      o_RegDeleteKey e =? ERROR_SUCCESS
    else false
  else false.

(** A machine on which the service is installed. *)
Definition installed_world : world :=
  set_os_service true (set_os_eventlog_key true init_world).

(** An environment for the installer: the handle of the service
    manager, the handle [CreateService] answers and the status of
    [RegDeleteKey] as given, every other call succeeding. *)
Definition scripted_registry (manager create_service : HANDLE)
           (delete_key : LSTATUS) : env :=
  mkEnv 5 (fun _ => None) 7 true (fun _ => ERROR_SUCCESS)
        (fun _ => ERROR_SUCCESS) delete_key "C:\stubby\stubby.exe"
        manager create_service 13 true true true 17 19 (0, 23) (1, 1) 1
        (0, 29) [].

(** An environment in which every call succeeds except as scripted. *)
Definition scripted (event_source create_service : HANDLE) (context_rc : Z)
           (polls : list DWORD) : env :=
  mkEnv 5 (fun _ => None) event_source true (fun _ => ERROR_SUCCESS)
        (fun _ => ERROR_SUCCESS) ERROR_SUCCESS "C:\stubby\stubby.exe"
        11 create_service 13 true true true 17 19 (context_rc, 23) (1, 1) 1
        (0, 29) polls.

(** [e] with another [validate_dnssec] out of [read_config]. *)
Definition with_validate_dnssec (v : Z) (e : env) : env :=
  mkEnv (o_GetLastError e) (o_FormatMessage e) (o_RegisterEventSource e)
        (o_StartServiceCtrlDispatcher e) (o_RegCreateKeyEx e)
        (o_RegSetValueEx e) (o_RegDeleteKey e) (o_GetModuleFileName e)
        (o_OpenSCManager e) (o_CreateService e) (o_OpenService e)
        (o_DeleteService e) (o_StartService e) (o_ControlService e)
        (o_RegisterServiceCtrlHandler e) (o_CreateEvent e)
        (o_getdns_context_create e) (fst (o_read_config e), v)
        (o_server_listen e) (o_getdns_context_get_eventloop e)
        (o_WaitForSingleObject e).

(** ** Vocabulary of the further properties *)

Definition is_close_handle (c : call) : bool :=
  match c with CCloseHandle _ => true | _ => false end.

Definition is_create_event (c : call) : bool :=
  match c with CCreateEvent _ _ => true | _ => false end.


Definition is_reg_close_key (c : call) : bool :=
  match c with CRegCloseKey => true | _ => false end.

Definition is_set_status (c : call) : bool :=
  match c with CSetServiceStatus _ _ => true | _ => false end.

Definition is_running_report (c : call) : bool :=
  match c with
  | CSetServiceStatus _ st => dwCurrentState st =? SERVICE_RUNNING
  | _ => false
  end.

Definition is_poll_or_iteration (c : call) : bool :=
  match c with
  | CWaitForSingleObject _ _ | Crun_once _ _ => true
  | _ => false
  end.




(** The status reports end with the one [STOPPED] report, whose exit
    code is zero exactly when [RUNNING] was reported before it. *)
Definition stops_once_at_the_end (sts : list SERVICE_STATUS) : Prop :=
  exists pre st,
    sts = pre ++ [st] /\
    dwCurrentState st = SERVICE_STOPPED /\
    existsb (fun s => dwCurrentState s =? SERVICE_STOPPED) pre = false /\
    (dwWin32ExitCode st =? 0) =
      existsb (fun s => dwCurrentState s =? SERVICE_RUNNING) pre.

(** What every status record of the service carries. *)
Definition well_formed_status (st : SERVICE_STATUS) : Prop :=
  dwServiceType st = SERVICE_WIN32_OWN_PROCESS /\
  dwServiceSpecificExitCode st = 0 /\
  dwControlsAccepted st =
    (if dwCurrentState st =? SERVICE_START_PENDING then 0
     else SERVICE_ACCEPT_STOP) /\
  (dwWin32ExitCode st <> 0 -> dwCurrentState st = SERVICE_STOPPED).



(** The control codes sent through [ControlService]. *)
Fixpoint controls_sent (cs : list call) : list DWORD :=
  match cs with
  | [] => []
  | CControlService code :: cs' => code :: controls_sent cs'
  | _ :: cs' => controls_sent cs'
  end.

(** The masks written under the value name [TypesSupported]. *)
Fixpoint types_supported (cs : list call) : list Z :=
  match cs with
  | [] => []
  | CRegSetValueEx name _ (ArgInt mask) _ :: cs' =>
      if String.eqb name "TypesSupported" then mask :: types_supported cs'
      else types_supported cs'
  | _ :: cs' => types_supported cs'
  end.

(** The events handed to [ReportEvent]: type, category, strings. *)
Fixpoint events_reported (cs : list call) : list (Z * Z * list string) :=
  match cs with
  | [] => []
  | CReportEvent _ type category _ strings :: cs' =>
      (type, category, strings) :: events_reported cs'
  | _ :: cs' => events_reported cs'
  end.

(** The calls that take the resolution context or its event loop. *)
Definition uses_context (c : call) : bool :=
  match c with
  | Cstubby_set_getdns_logging _ _ | Cinit_config _ | Cread_config _
  | Cserver_listen _ _ | Cgetdns_context_get_eventloop _ | Crun_once _ _
  | Cgetdns_context_destroy _ => true
  | _ => false
  end.

Definition is_context_create (c : call) : bool :=
  match c with Cgetdns_context_create _ => true | _ => false end.

Definition is_context_destroy (c : call) : bool :=
  match c with Cgetdns_context_destroy _ => true | _ => false end.

(** Nothing takes the context after it has been destroyed. *)
Fixpoint unused_after_destroy (cs : list call) : bool :=
  match cs with
  | [] => true
  | c :: cs' =>
      if is_context_destroy c then negb (existsb uses_context cs')
      else unused_after_destroy cs'
  end.

(** * Proofs *)

Arguments DWORD_of : simpl never.
Arguments snprintf : simpl never.
Arguments strlen : simpl never.
Arguments eventlog_key : simpl never.
Arguments eventlog_application : simpl never.

(** Evaluation of a program term that leaves arithmetic on symbolic
    values and the string constants folded. *)
Ltac run_cbn :=
  cbn -[Z.add Z.sub DWORD_of snprintf strlen eventlog_key
        eventlog_application winerr report_winerr winerr_text].

(** [winerr] writes its line and ends the process. *)
Lemma winerr_run {A} (e : env) (operation : string) (status : Z) (w : world) :
  @winerr A e operation status w =
    (Exited EXIT_FAILURE,
     log (Cfprintf Stderr (fst (winerr_text e operation (DWORD_of status)))
                   (snd (winerr_text e operation (DWORD_of status))))
         (log (CFormatMessage (DWORD_of status)) w)).
Proof.
  unfold winerr, winerr_text, external, bind, do_call, modify, ret, exit.
  cbn. destruct (o_FormatMessage e (DWORD_of status)); reflexivity.
Qed.

(** [report_winerr] logs its line and returns. *)
Lemma report_winerr_run (e : env) (operation : string) (w : world) :
  report_winerr e operation w =
    (Ret tt,
     log (Cstubby_error
            (fst (winerr_text e operation (o_GetLastError e)))
            (snd (winerr_text e operation (o_GetLastError e))))
         (log (CFormatMessage (o_GetLastError e)) (log CGetLastError w))).
Proof.
  unfold report_winerr, winerr_text, external, bind, do_call, modify, ret.
  cbn. destruct (o_FormatMessage e (o_GetLastError e)); reflexivity.
Qed.

Lemma statuses_of_app (a b : list call) :
  statuses_of (a ++ b) = statuses_of a ++ statuses_of b.
Proof.
  induction a as [|c a IH]; [reflexivity|].
  destruct c; cbn; rewrite ?IH; reflexivity.
Qed.

Lemma listen_flags_app (a b : list call) :
  listen_flags (a ++ b) = listen_flags a ++ listen_flags b.
Proof.
  induction a as [|c a IH]; [reflexivity|].
  destruct c; cbn; rewrite ?IH; reflexivity.
Qed.

(** ** The control handler *)

(** C4.  Whatever control code arrives, the handler returns, makes no
    teardown call and leaves the stop-event handle alone.  On a stop
    control its only calls are one status report, whose state is
    [STOP_PENDING], and [SetEvent] on the stop event; on every other
    code, interrogate included, the process state is unchanged. *)
Theorem SvcCtrlHandler_signals_and_returns (dwCtrl : DWORD) (w : world) :
  let w' := snd (SvcCtrlHandler dwCtrl w) in
  fst (SvcCtrlHandler dwCtrl w) = Ret tt /\
  (exists ext,
      calls w' = calls w ++ ext /\
      existsb teardown_call ext = false /\
      ext = if dwCtrl =? SERVICE_CONTROL_STOP
            then [CSetServiceStatus (gSvcStatusHandle w) (gSvcStatus w');
                  CSetEvent (ghSvcStopEvent w)]
            else []) /\
  ghSvcStopEvent w' = ghSvcStopEvent w /\
  (if dwCtrl =? SERVICE_CONTROL_STOP
   then dwCurrentState (gSvcStatus w') = SERVICE_STOP_PENDING /\
        dwWin32ExitCode (gSvcStatus w') = 0
   else w' = w).
Proof.
  unfold SvcCtrlHandler.
  destruct (dwCtrl =? SERVICE_CONTROL_STOP) eqn:Hstop.
  - cbn. split; [reflexivity|]. split; [|repeat split].
    match goal with |- exists ext, _ /\ _ /\ ext = ?l => exists l end.
    rewrite <- app_assoc. repeat split.
  - destruct (dwCtrl =? SERVICE_CONTROL_INTERROGATE); cbn;
      (repeat split; exists []; rewrite app_nil_r; repeat split).
Qed.

(** ** The status reporter *)

Lemma set_calls_same (w : world) : set_calls (calls w) w = w.
Proof. destruct w; reflexivity. Qed.

Lemma seq_offset (c : Z) (k : nat) :
  map (fun i => c + 1 + Z.of_nat i) (seq 0 k) =
  map (fun i => c + Z.of_nat i) (seq 1 k).
Proof.
  rewrite <- seq_shift, map_map. apply map_ext.
  intros i. lia.
Qed.

Lemma sorted_from (c : Z) (k : nat) (s : nat) :
  StronglySorted Z.lt (map (fun i => c + Z.of_nat i) (seq s k)).
Proof.
  revert s. induction k as [|k IH]; intros s; cbn; constructor.
  - apply IH.
  - apply Forall_forall. intros x Hx.
    apply in_map_iff in Hx. destruct Hx as [i [<- Hi]].
    apply in_seq in Hi. lia.
Qed.

Lemma ReportSvcStatus_run (s x h : DWORD) (w : world) :
  exists st,
    ReportSvcStatus s x h w =
      (Ret tt,
       log (CSetServiceStatus (gSvcStatusHandle w) st)
           (set_dwCheckPoint
              (if steady_state s then ReportSvcStatus_dwCheckPoint w
               else DWORD_of (ReportSvcStatus_dwCheckPoint w + 1))
              (set_gSvcStatus st w))) /\
    dwCurrentState st = s /\
    dwWin32ExitCode st = x /\
    dwServiceType st = dwServiceType (gSvcStatus w) /\
    dwCheckPoint st =
      if steady_state s then 0 else ReportSvcStatus_dwCheckPoint w.
Proof.
  unfold ReportSvcStatus, bind, get, modify, do_call, ret.
  destruct (steady_state s); cbn; eexists; repeat split.
Qed.

Lemma run_reports_spec (l : list (DWORD * DWORD * DWORD)) :
  forall w,
    0 < ReportSvcStatus_dwCheckPoint w ->
    ReportSvcStatus_dwCheckPoint w + Z.of_nat (List.length l) < DWORD_modulus ->
    exists w' sts,
      run_reports l w = (Ret tt, w') /\
      statuses_of (calls w') = statuses_of (calls w) ++ sts /\
      map dwCurrentState sts = map (fun c => fst (fst c)) l /\
      Forall (fun st => dwCheckPoint st = 0 <-> steady st = true) sts /\
      pending_checkpoints sts =
        map (fun i => ReportSvcStatus_dwCheckPoint w + Z.of_nat i)
            (seq 0 (List.length (pending_checkpoints sts))).
Proof.
  induction l as [|[[s x] h] l IH]; intros w Hpos Hwrap.
  - exists w, []. cbn. rewrite app_nil_r. repeat split. constructor.
  - cbn [run_reports]. unfold bind.
    destruct (ReportSvcStatus_run s x h w) as (st & -> & Hst_s & _ & _ & Hst_cp).
    cbn [List.length] in Hwrap. rewrite Nat2Z.inj_succ in Hwrap.
    match goal with |- context [run_reports l ?w1] =>
        destruct (IH w1) as (w' & sts & Hrun & Hst & Hmap & Hall & Hcp) end.
    { cbn. destruct (steady_state s); [exact Hpos|].
      unfold DWORD_of, DWORD_modulus in *. rewrite Z.mod_small; lia. }
    { cbn. destruct (steady_state s); [lia|].
      unfold DWORD_of, DWORD_modulus in *. rewrite Z.mod_small; lia. }
    exists w', (st :: sts). rewrite Hrun. split; [reflexivity|].
    cbn in Hst, Hcp. rewrite Hst, statuses_of_app. cbn.
    rewrite <- app_assoc. cbn. split; [reflexivity|].
    split; [rewrite Hmap, Hst_s; reflexivity|].
    unfold pending_checkpoints in *. cbn [filter].
    assert (Hsteady : steady st = steady_state s)
      by (unfold steady; rewrite Hst_s; reflexivity).
    rewrite !Hsteady.
    destruct (steady_state s) eqn:Hs.
    + split.
      * constructor; [|exact Hall]. rewrite Hsteady, Hst_cp.
        split; reflexivity.
      * cbn. exact Hcp.
    + split.
      * constructor; [|exact Hall]. rewrite Hsteady, Hst_cp.
        split; [lia|discriminate].
      * cbn. rewrite Hcp at 1. rewrite Hst_cp. f_equal; [lia|].
        unfold DWORD_of, DWORD_modulus in *.
        rewrite Z.mod_small by lia. apply seq_offset.
Qed.

(** ** The run loop *)

Lemma set_calls_log (c : call) (w : world) (ext : list call) :
  set_calls (calls (log c w) ++ ext) (log c w) =
  set_calls (calls w ++ c :: ext) w.
Proof.
  destruct w; cbn. rewrite <- app_assoc. reflexivity.
Qed.

Lemma log_last (c : call) (w : world) :
  log c w = set_calls (calls w ++ [c]) w.
Proof. reflexivity. Qed.

(** Nested [log]s as one extension of the call list. *)
Ltac flatten_logs :=
  rewrite log_last at 1; rewrite ?set_calls_log; cbn [app].

Lemma run_loop_spec (e : env) (el : Z) (polls : list DWORD) :
  forall w,
    exists ext,
      Forall (fun c => loop_call c = true) ext /\
      count_calls is_run_once ext = leading_signaled polls /\
      run_loop e el 1 polls w =
        (if forallb (fun answer => answer =? WAIT_OBJECT_0) polls
         then Pending else Ret tt,
         set_calls (calls w ++ ext) w).
Proof.
  induction polls as [|answer polls IH]; intros w.
  - exists []. cbn. rewrite app_nil_r, set_calls_same. repeat split.
    constructor.
  - cbn [run_loop forallb leading_signaled].
    unfold poll_switch, report_winerr, external, bind, get, do_call, modify, ret.
    destruct (answer =? WAIT_OBJECT_0) eqn:Hsig.
    + cbn.
      match goal with |- context [run_loop e el 1 polls ?w1] =>
        destruct (IH w1) as (ext & Hext & Hcount & ->) end.
      eexists (_ :: _ :: ext).
      match goal with |- _ /\ _ /\ ?G =>
        assert (Heq : G) by (rewrite !set_calls_log; reflexivity) end.
      split; [|split; [|exact Heq]].
      * constructor; [reflexivity|]. constructor; [reflexivity|]. exact Hext.
      * unfold count_calls in *. cbn. rewrite Hcount. reflexivity.
    + destruct (answer =? WAIT_FAILED); cbn.
      * destruct (o_FormatMessage e (o_GetLastError e)); cbn;
          eexists [_; _; _; _];
          (match goal with |- _ /\ _ /\ ?G =>
             assert (Heq : G)
               by (flatten_logs; reflexivity) end);
          (split; [|split; [|exact Heq]]); [repeat constructor|reflexivity
                                           |repeat constructor|reflexivity].
      * eexists [_; _];
          (match goal with |- _ /\ _ /\ ?G =>
             assert (Heq : G)
               by (flatten_logs; reflexivity) end);
          (split; [|split; [|exact Heq]]); [repeat constructor|reflexivity].
Qed.

(** ** The startup of the service *)

Lemma loop_calls_no_status (ext : list call) :
  Forall (fun c => loop_call c = true) ext -> statuses_of ext = [].
Proof.
  induction 1 as [|c ext Hc _ IH]; [reflexivity|].
  destruct c; try discriminate; exact IH.
Qed.

Lemma loop_calls_no_listen (ext : list call) :
  Forall (fun c => loop_call c = true) ext -> listen_flags ext = [].
Proof.
  induction 1 as [|c ext Hc _ IH]; [reflexivity|].
  destruct c; try discriminate; exact IH.
Qed.

Lemma loop_calls_no_teardown (ext : list call) :
  Forall (fun c => loop_call c = true) ext -> existsb teardown_call ext = false.
Proof.
  induction 1 as [|c ext Hc _ IH]; [reflexivity|].
  destruct c; try discriminate; exact IH.
Qed.

Lemma loop_calls_no_stopped (ext : list call) :
  Forall (fun c => loop_call c = true) ext ->
  existsb is_stopped_report ext = false.
Proof.
  induction 1 as [|c ext Hc _ IH]; [reflexivity|].
  destruct c; try discriminate; exact IH.
Qed.

(** [validate_dnssec] does not reach the run loop. *)
Lemma run_loop_validate_dnssec (v : Z) (e : env) (el more : Z)
      (polls : list DWORD) :
  forall w,
    run_loop (with_validate_dnssec v e) el more polls w =
    run_loop e el more polls w.
Proof.
  induction polls as [|answer polls IH]; intros w; [reflexivity|].
  cbn [run_loop].
  unfold poll_switch, report_winerr, external, bind, get, do_call, modify, ret.
  cbn.
  destruct (answer =? WAIT_OBJECT_0); cbn.
  - destruct (more =? 0); [reflexivity|apply IH].
  - destruct (answer =? WAIT_FAILED); cbn; [|reflexivity].
    destruct (o_FormatMessage e (o_GetLastError e)); reflexivity.
Qed.

Lemma tail_here {A} (l : list A) : l = [] ++ l.
Proof. reflexivity. Qed.

Lemma tail_later {A} (a : A) (l pre t : list A) :
  l = pre ++ t -> a :: l = (a :: pre) ++ t.
Proof. intros ->. reflexivity. Qed.

(** Splits an explicit list into a prefix and the tail the goal names. *)
Ltac find_tail :=
  first [ refine (tail_here _) | apply tail_later; find_tail ].

Ltac unfold_prog :=
  unfold SvcMain, SvcInit, tidy_and_exit, report_getdnserr,
    ReportSvcStatus, external, bind, get, modify, do_call, ret, exit, pending.

(** One case split of the startup: an answer of the environment, a
    test, or the run loop through [run_loop_spec]. *)
Ltac case_step :=
  match goal with
  | |- context [o_getdns_context_create ?e] =>
      destruct (o_getdns_context_create e) as [? ?]
  | |- context [o_read_config ?e] =>
      destruct (o_read_config e) as [? ?]
  | |- context [o_getdns_context_get_eventloop ?e] =>
      destruct (o_getdns_context_get_eventloop e) as [? ?]
  | |- context [@winerr ?A ?e ?op ?err ?w1] =>
      rewrite (@winerr_run A e op err w1)
  | |- context [report_winerr ?e ?op ?w1] =>
      rewrite (report_winerr_run e op w1)
  | |- context [run_loop (with_validate_dnssec _ _)] =>
      rewrite run_loop_validate_dnssec
  | |- context [run_loop ?e ?el 1 ?p ?w1] =>
      let ext := fresh "ext" in
      let Hext := fresh "Hext" in
      let Hcount := fresh "Hcount" in
      destruct (run_loop_spec e el p w1) as (ext & Hext & Hcount & ->)
  | |- context [if ?b then _ else _] =>
      lazymatch b with
      | context [forallb] => fail
      | negb ?c => destruct c eqn:?
      | _ => destruct b eqn:?
      end
  | |- context [forallb ?f ?l] => destruct (forallb f l) eqn:?
  end; run_cbn.

Ltac startup_cases :=
  unfold_prog; unfold startup_of, loop_leaves; run_cbn; repeat case_step.

(** ** Startup failures *)

(** C3 (amended).  A startup failure after the stop event exists
    reports [STOPPED] with exit code 1 and returns; the process does not
    exit.  When the configuration cannot be read, the listeners cannot
    be set up or the event loop cannot be retrieved, the report is
    followed by the shared teardown, once: destroy the context, release
    the configuration, close the stop handle.  When the context cannot
    be created, the report is followed by the closing of the stop
    handle alone.  No teardown call precedes the report, so nothing is
    freed twice. *)
Theorem SvcInit_startup_failure (e : env) (dwArgc : DWORD)
        (lpszArgv : list string) (w : world) :
  let r := SvcInit e dwArgc lpszArgv w in
  let h := gSvcStatusHandle w in
  let context := snd (o_getdns_context_create e) in
  let stop := o_CreateEvent e in
  match startup_of e with
  | NoContext =>
      exists pre st,
        fst r = Ret tt /\
        calls (snd r) =
          calls w ++ pre ++ [CSetServiceStatus h st; CCloseHandle stop] /\
        existsb teardown_call pre = false /\
        dwCurrentState st = SERVICE_STOPPED /\ dwWin32ExitCode st = 1 /\
        ghSvcStopEvent (snd r) = NULL
  | NoConfig | NoListener | NoEventLoop =>
      exists pre st,
        fst r = Ret tt /\
        calls (snd r) =
          calls w ++ pre ++
          [CSetServiceStatus h st; Cgetdns_context_destroy context;
           Cdelete_config; CCloseHandle stop] /\
        existsb teardown_call pre = false /\
        dwCurrentState st = SERVICE_STOPPED /\ dwWin32ExitCode st = 1 /\
        ghSvcStopEvent (snd r) = NULL
  | NoEvent | Started => True
  end.
Proof.
  startup_cases; try exact I.
  all: rewrite <- ?app_assoc; cbn [app].
  all: do 2 eexists; split; [reflexivity|];
    split; [apply f_equal; find_tail|]; repeat split.
Qed.

(** C3, the claim as written fails: when the resolution context
    cannot be created, no context is destroyed and no configuration is
    released; the handle of the stop event is the only thing closed. *)
Lemma context_failure_skips_shared_teardown :
  let e := scripted 7 13 1 [] in
  let cs := calls (snd (SvcInit e 1 ["Stubby"] init_world)) in
  startup_of e = NoContext /\
  filter teardown_call cs = [CCloseHandle 19] /\
  ~ In Cdelete_config cs /\
  ~ In (Cgetdns_context_destroy 23) cs.
Proof.
  cbv zeta. split; [reflexivity|]. split; [reflexivity|].
  split; vm_compute; intuition discriminate.
Qed.

(** ** Leaving the run loop *)

(** C2 (amended).  When the startup reached [RUNNING] and the run loop
    leaves, [SvcInit] returns and its calls end with the [STOPPED]
    report, exit code 0, followed by the teardown: destroy the context,
    release the configuration, close the stop handle; the handle
    variable is null afterwards.  No teardown call and no [STOPPED]
    report comes earlier.  While the loop turns there is no [STOPPED]
    report at all and the handle variable holds the stop event. *)
Theorem SvcInit_stopped_then_teardown (e : env) (dwArgc : DWORD)
        (lpszArgv : list string) (w : world) :
  let r := SvcInit e dwArgc lpszArgv w in
  let h := gSvcStatusHandle w in
  let context := snd (o_getdns_context_create e) in
  let stop := o_CreateEvent e in
  match startup_of e with
  | Started =>
      if loop_leaves (o_WaitForSingleObject e) then
        exists pre st,
          fst r = Ret tt /\
          calls (snd r) =
            calls w ++ pre ++
            [CSetServiceStatus h st; Cgetdns_context_destroy context;
             Cdelete_config; CCloseHandle stop] /\
          existsb teardown_call pre = false /\
          existsb is_stopped_report pre = false /\
          dwCurrentState st = SERVICE_STOPPED /\ dwWin32ExitCode st = 0 /\
          ghSvcStopEvent (snd r) = NULL
      else fst r = Pending /\
           existsb is_stopped_report (calls (snd r)) =
           existsb is_stopped_report (calls w) /\
           ghSvcStopEvent (snd r) = stop
  | _ => True
  end.
Proof.
  startup_cases; try exact I.
  all: rewrite <- ?app_assoc; cbn [app].
  all: match goal with H : Forall _ ?x |- _ =>
         pose proof (loop_calls_no_stopped _ H) as Hns;
         pose proof (loop_calls_no_teardown _ H) as Hnt
       end.
  all: try (split; [reflexivity|]; split; [|reflexivity];
            rewrite !existsb_app; cbn;
            rewrite Hns, ?orb_false_r; reflexivity).
  all: rewrite ?app_comm_cons.
  all: match goal with |- context [calls _ ++ ?p ++ ?t] =>
         exists p; eexists end.
  all: split; [reflexivity|]; split; [reflexivity|].
  all: cbn; rewrite Hns, Hnt; repeat split.
Qed.

(** C2, the claim as written fails: with the poll failing on the first
    pass the loop leaves, and the three teardown calls come after the
    [STOPPED] report, not before it. *)
Lemma teardown_follows_stopped_report :
  let e := scripted 7 13 0 [WAIT_FAILED] in
  let r := SvcInit e 1 ["Stubby"] init_world in
  startup_of e = Started /\
  fst r = Ret tt /\
  teardown_before_stopped (calls (snd r)) = false /\
  skipn 15 (calls (snd r)) =
    [CSetServiceStatus 0 (mkStatus 0 SERVICE_STOPPED SERVICE_ACCEPT_STOP
                                   0 0 0 0);
     Cgetdns_context_destroy 23; Cdelete_config; CCloseHandle 19].
Proof.
  cbv zeta. repeat split; vm_compute; reflexivity.
Qed.

(** ** The poll of the run loop *)

Lemma leading_signaled_repeat (n : nat) :
  leading_signaled (repeat WAIT_OBJECT_0 n) = n.
Proof. induction n as [|n IH]; cbn; [|rewrite IH]; reflexivity. Qed.

Lemma forallb_signaled_repeat (n : nat) :
  forallb (fun answer => answer =? WAIT_OBJECT_0) (repeat WAIT_OBJECT_0 n)
  = true.
Proof. induction n as [|n IH]; cbn; [|rewrite IH]; reflexivity. Qed.

(** C1, what the loop does with the answers of the poll.  An
    unsignaled stop event ([WAIT_TIMEOUT]) makes the loop leave at
    once, through the branch that logs "Stop object signalled", with no
    engine iteration.  A signaled stop event ([WAIT_OBJECT_0]) makes the
    loop run one engine iteration and poll again; as long as the event
    stays signaled the loop never leaves. *)
Theorem run_loop_poll_inverted (e : env) (eventloop : Z) (polls : list DWORD)
        (w : world) :
  let polled := log (CWaitForSingleObject (ghSvcStopEvent w) 0) w in
  run_loop e eventloop 1 (poll_of_event false :: polls) w =
    (Ret tt, log (Cstubby_debug "Stop object signalled") polled) /\
  run_loop e eventloop 1 (poll_of_event true :: polls) w =
    run_loop e eventloop 1 polls (log (Crun_once eventloop 1) polled) /\
  forall n,
    let r := run_loop e eventloop 1 (repeat (poll_of_event true) n) w in
    fst r = Pending /\
    exists ext,
      calls (snd r) = calls w ++ ext /\ count_calls is_run_once ext = n.
Proof.
  cbv zeta. repeat split.
  - destruct (run_loop_spec e eventloop (repeat WAIT_OBJECT_0 n) w)
      as (ext & _ & _ & Hrun).
    cbn [poll_of_event]. rewrite Hrun, forallb_signaled_repeat. reflexivity.
  - destruct (run_loop_spec e eventloop (repeat WAIT_OBJECT_0 n) w)
      as (ext & _ & Hcount & Hrun).
    cbn [poll_of_event]. rewrite Hrun. exists ext. cbn.
    rewrite Hcount, leading_signaled_repeat. split; reflexivity.
Qed.

(** ** The checkpoint counter *)

(** The reports of one run of [SvcMain] in a fresh process. *)
Lemma SvcMain_checkpoints (e : env) (dwArgc : DWORD) (lpszArgv : list string) :
  checkpoint_discipline
    (statuses_of (calls (snd (SvcMain e dwArgc lpszArgv init_world)))).
Proof.
  startup_cases.
  all: rewrite <- ?app_assoc; cbn [app].
  all: try match goal with H : Forall _ ?x |- _ =>
         rewrite ?app_comm_cons, ?statuses_of_app;
         cbn; rewrite (loop_calls_no_status _ H)
           end.
  all: cbn; unfold checkpoint_discipline, pending_checkpoints; cbn.
  all: repeat split; repeat (constructor; cbn; try lia);
       try (split; (reflexivity || discriminate)).
  all: vm_compute; intro; discriminate.
Qed.

(** C6.  Take any sequence of status reports made from a fresh counter
    (it starts at 1), however the reports of the service thread and of
    the control handler interleave, short enough for the 32-bit counter
    not to wrap.  Every report is made; a report carries checkpoint zero
    exactly when its state is [RUNNING] or [STOPPED]; the checkpoints of
    the other reports are 1, 2, 3, ... in order, hence strictly
    increasing. *)
Theorem checkpoint_counter_discipline (l : list (DWORD * DWORD * DWORD))
        (w : world) :
  ReportSvcStatus_dwCheckPoint w = 1 ->
  calls w = [] ->
  Z.of_nat (List.length l) < DWORD_modulus - 1 ->
  exists w',
    run_reports l w = (Ret tt, w') /\
    map dwCurrentState (statuses_of (calls w')) =
      map (fun c => fst (fst c)) l /\
    checkpoint_discipline (statuses_of (calls w')).
Proof.
  intros Hone Hfresh Hshort.
  destruct (run_reports_spec l w) as (w' & sts & Hrun & Hsts & Hmap & Hall & Hcp);
    [lia|lia|].
  rewrite Hfresh in Hsts. cbn in Hsts.
  exists w'. rewrite Hsts. split; [exact Hrun|]. split; [exact Hmap|].
  unfold checkpoint_discipline. split; [exact Hall|].
  rewrite Hone in Hcp.
  assert (Hseq : pending_checkpoints sts =
          map Z.of_nat (seq 1 (List.length (pending_checkpoints sts)))).
  { rewrite Hcp at 1. rewrite <- seq_shift, map_map.
    apply map_ext. intros i. lia. }
  split; [exact Hseq|].
  rewrite Hcp. apply sorted_from.
Qed.

Lemma checkpoint_counter_discipline_witness :
  exists w',
    run_reports [(SERVICE_START_PENDING, 0, 3000); (SERVICE_RUNNING, 0, 0);
                 (SERVICE_STOP_PENDING, 0, 0); (SERVICE_STOPPED, 0, 0)]
                init_world = (Ret tt, w') /\
    map dwCurrentState (statuses_of (calls w')) =
      map (fun c => fst (fst c))
          [(SERVICE_START_PENDING, 0, 3000); (SERVICE_RUNNING, 0, 0);
           (SERVICE_STOP_PENDING, 0, 0); (SERVICE_STOPPED, 0, 0)] /\
    checkpoint_discipline (statuses_of (calls w')).
Proof.
  apply checkpoint_counter_discipline; [reflexivity|reflexivity|].
  cbn. reflexivity.
Defined.

(** ** The flag of [server_listen] *)

(** C5.  The flag handed to [server_listen] is the global
    [dnssec_validation].  The loader sets it to zero, and neither the
    service thread nor the control handler nor the event-log bridge
    changes it, so a fresh process listens with flag 0.  The
    [validate_dnssec] that [read_config] yields has no effect on
    anything [SvcMain] does. *)
Theorem server_listen_flag_is_zero (ids : event_ids) (e : env)
        (dwArgc : DWORD) (lpszArgv : list string) (w : world) :
  dnssec_validation init_world = 0 /\
  Forall (fun flag => flag = 0)
         (listen_flags (calls (snd (SvcMain e dwArgc lpszArgv init_world)))) /\
  (exists ext,
      calls (snd (SvcMain e dwArgc lpszArgv w)) = calls w ++ ext /\
      Forall (fun flag => flag = dnssec_validation w) (listen_flags ext)) /\
  dnssec_validation (snd (SvcMain e dwArgc lpszArgv w)) = dnssec_validation w /\
  (forall dwCtrl,
      dnssec_validation (snd (SvcCtrlHandler dwCtrl w)) = dnssec_validation w) /\
  (forall level expansion,
      dnssec_validation (snd (report_verror ids e level expansion w)) =
      dnssec_validation w) /\
  (forall v,
      SvcMain (with_validate_dnssec v e) dwArgc lpszArgv w =
      SvcMain e dwArgc lpszArgv w).
Proof.
  split; [reflexivity|]. split; [|split; [|split; [|split; [|split]]]].
  - startup_cases.
    all: rewrite <- ?app_assoc; cbn [app].
    all: try match goal with H : Forall _ ?x |- _ =>
           rewrite ?app_comm_cons, ?listen_flags_app;
           cbn; rewrite (loop_calls_no_listen _ H)
         end.
    all: cbn; repeat constructor.
  - startup_cases.
    all: rewrite <- ?app_assoc; cbn [app].
    all: eexists; (split; [reflexivity|]).
    all: try match goal with H : Forall _ ?x |- _ =>
           rewrite ?app_comm_cons, ?listen_flags_app;
           cbn; rewrite (loop_calls_no_listen _ H)
         end.
    all: cbn; repeat constructor.
  - startup_cases; reflexivity.
  - intros dwCtrl. unfold SvcCtrlHandler.
    destruct (dwCtrl =? SERVICE_CONTROL_STOP); [reflexivity|].
    destruct (dwCtrl =? SERVICE_CONTROL_INTERROGATE); reflexivity.
  - intros level expansion. unfold report_verror, external, bind, do_call,
      modify, ret. cbn.
    destruct (o_RegisterEventSource e =? NULL); [reflexivity|].
    destruct (event_of_level ids level). reflexivity.
  - intros v. startup_cases; reflexivity.
Qed.

(** ** The event-log bridge *)

(** C8.  With an event source at hand, a log callback emits one event
    whose class and identifier are those of [event_of_level]: the class
    is the one the spec gives the severity, and two of the eight
    severities never share an identifier, the identifiers of
    windowsservice.h being distinct. *)
Theorem report_verror_classifies (ids : event_ids) (e : env) (level : Z)
        (expansion : string) (w : world) :
  distinct_ids ids ->
  o_RegisterEventSource e <> NULL ->
  let h := o_RegisterEventSource e in
  report_verror ids e level expansion w =
    (Ret tt,
     log (CDeregisterEventSource h)
       (log (CReportEvent h (fst (event_of_level ids level)) 0
                          (snd (event_of_level ids level))
                          [SVCNAME; snprintf 256 expansion])
          (log (CRegisterEventSource SVCNAME) w))) /\
  fst (event_of_level ids level) = spec_event_class level /\
  (forall l1 l2,
      GETDNS_LOG_EMERG <= l1 <= GETDNS_LOG_DEBUG ->
      GETDNS_LOG_EMERG <= l2 <= GETDNS_LOG_DEBUG ->
      snd (event_of_level ids l1) = snd (event_of_level ids l2) -> l1 = l2) /\
  (forall l, ~ GETDNS_LOG_EMERG <= l <= GETDNS_LOG_INFO ->
             event_of_level ids l = (EVENTLOG_INFORMATION_TYPE, SVC_DEBUG ids)).
Proof.
  intros Hdistinct Hsource. cbv zeta. split; [|split; [|split]].
  - unfold report_verror, external, bind, do_call, modify, ret. cbn.
    apply Z.eqb_neq in Hsource. rewrite Hsource.
    destruct (event_of_level ids level). reflexivity.
  - unfold event_of_level, spec_event_class. cbn [existsb].
    repeat match goal with
           | |- context [level =? ?k] => destruct (level =? k); cbn
           end; reflexivity.
  - intros l1 l2 H1 H2.
    unfold GETDNS_LOG_EMERG, GETDNS_LOG_DEBUG in H1, H2.
    unfold distinct_ids in Hdistinct.
    assert (Hl1 : l1 = 0 \/ l1 = 1 \/ l1 = 2 \/ l1 = 3 \/ l1 = 4 \/ l1 = 5 \/
                  l1 = 6 \/ l1 = 7) by lia.
    assert (Hl2 : l2 = 0 \/ l2 = 1 \/ l2 = 2 \/ l2 = 3 \/ l2 = 4 \/ l2 = 5 \/
                  l2 = 6 \/ l2 = 7) by lia.
    repeat match goal with
           | H : NoDup (_ :: _) |- _ => inversion H; subst; clear H
           end.
    cbn [In] in *.
    repeat match goal with H : _ \/ _ |- _ => destruct H end; subst;
      cbn; intros Heq; try reflexivity; exfalso; intuition congruence.
  - intros l Hl. unfold event_of_level.
    unfold GETDNS_LOG_EMERG, GETDNS_LOG_ALERT, GETDNS_LOG_CRIT, GETDNS_LOG_ERR,
      GETDNS_LOG_WARNING, GETDNS_LOG_NOTICE, GETDNS_LOG_INFO in *.
    repeat match goal with
           | |- context [l =? ?k] =>
               destruct (Z.eqb_spec l k); [exfalso; lia|]
           end.
    reflexivity.
Qed.

Lemma report_verror_classifies_witness :
  let ids := mkIds 1 2 3 4 5 6 7 8 in
  let e := scripted 7 13 0 [] in
  report_verror ids e GETDNS_LOG_WARNING "upstream down" init_world =
    (Ret tt,
     log (CDeregisterEventSource 7)
       (log (CReportEvent 7 EVENTLOG_WARNING_TYPE 0 5
                          [SVCNAME; "upstream down"])
          (log (CRegisterEventSource SVCNAME) init_world))) /\
  fst (event_of_level ids GETDNS_LOG_WARNING) =
    spec_event_class GETDNS_LOG_WARNING.
Proof.
  cbv zeta.
  destruct (report_verror_classifies (mkIds 1 2 3 4 5 6 7 8)
              (scripted 7 13 0 []) GETDNS_LOG_WARNING "upstream down"
              init_world) as (Hrun & Hclass & _).
  - unfold distinct_ids. cbn.
    repeat constructor; cbn; intuition discriminate.
  - discriminate.
  - split; [exact Hrun|exact Hclass].
Defined.

(** C10.  When no event source can be registered the callback returns
    at once: its only call is the failed registration, no event is
    reported, the process goes on and no global changes. *)
Theorem report_verror_drops_without_source (ids : event_ids) (e : env)
        (level : Z) (expansion : string) (w : world) :
  o_RegisterEventSource e = NULL ->
  report_verror ids e level expansion w =
    (Ret tt, log (CRegisterEventSource SVCNAME) w) /\
  (forall userarg system,
      report_vlog ids e userarg system level expansion w =
        (Ret tt, log (CRegisterEventSource SVCNAME) w)).
Proof.
  intros Hnull. unfold report_vlog, report_verror, external, bind, do_call,
    modify, ret. cbn. rewrite Hnull. cbn. split; [reflexivity|].
  intros userarg system. reflexivity.
Qed.

Lemma report_verror_drops_without_source_witness :
  report_verror (mkIds 1 2 3 4 5 6 7 8) (scripted NULL 13 0 [])
                GETDNS_LOG_ERR "upstream down" init_world =
    (Ret tt, log (CRegisterEventSource SVCNAME) init_world).
Proof.
  apply (report_verror_drops_without_source (mkIds 1 2 3 4 5 6 7 8)
           (scripted NULL 13 0 [])).
  reflexivity.
Defined.

(** ** The installer and the uninstaller *)

Lemma eventlog_key_is_itself : String.eqb eventlog_key eventlog_key = true.
Proof. apply String.eqb_refl. Qed.

Lemma eventlog_application_is_parent :
  String.eqb eventlog_application eventlog_key = false.
Proof. vm_compute. reflexivity. Qed.

Ltac unfold_commands :=
  unfold windows_service_command, SvcInstall, SvcRemove, SvcStart, SvcStop,
    SvcService, createRegistryEntries, deleteRegistryEntries, OpenSCManager,
    OpenService, CreateService, DeleteService, RegCreateKeyEx, RegSetValueEx,
    RegDeleteKey, winlasterr, external, bind, get,
    modify, do_call, ret, exit, pending.

Ltac command_cases :=
  unfold_commands; run_cbn;
  rewrite ?eventlog_key_is_itself, ?eventlog_application_is_parent,
    ?andb_true_r, ?andb_false_r;
  run_cbn; repeat case_step.

(** C7 (amended).  Installation creates the event-log key and writes
    its four values before it creates the service, and removal deletes
    the service before it opens and deletes the event-log key: the
    registration calls of either are a beginning of the full ordered
    sequence, the whole of it when the command returns.  What each
    leaves behind follows from how far it got.  So whatever call fails,
    an install or a remove that starts with every registered service
    logged ends that way: the service registration is never left without
    its event-log entry.  The event-log entry is left without a service
    when an install that created the key does not get the service
    created (the service manager cannot be opened, [CreateService]
    fails, a value cannot be written) and when a remove that deleted
    the service does not get the key deleted.  An install that returns
    leaves both registrations, a remove that returns leaves none, and
    either exits with a failure status otherwise. *)
Theorem install_remove_keep_service_logged (e : env) (w : world) :
  service_has_eventlog w = true ->
  let wi := snd (SvcInstall e w) in
  let wr := snd (SvcRemove e w) in
  (exists ext,
      calls wi = calls w ++ ext /\
      first_comes creates_eventlog_key creates_service ext = true) /\
  (exists ext,
      calls wr = calls w ++ ext /\
      first_comes deletes_service deletes_eventlog_key ext = true) /\
  service_has_eventlog wi = true /\
  service_has_eventlog wr = true /\
  match fst (SvcInstall e w) with
  | Ret _ => os_eventlog_key wi = true /\ os_service wi = true
  | Exited code => code = EXIT_FAILURE
  | Pending => False
  end /\
  match fst (SvcRemove e w) with
  | Ret _ => os_eventlog_key wr = false /\ os_service wr = false
  | Exited code => code = EXIT_FAILURE
  | Pending => False
  end /\
  (exists ext cmd rest,
      calls wi = calls w ++ ext /\
      install_registrations (o_GetModuleFileName e) cmd =
        filter registration_call ext ++ rest /\
      match fst (SvcInstall e w) with Ret _ => rest = [] | _ => True end) /\
  (exists ext rest,
      calls wr = calls w ++ ext /\
      remove_registrations = filter registration_call ext ++ rest /\
      match fst (SvcRemove e w) with Ret _ => rest = [] | _ => True end) /\
  os_eventlog_key wi = (os_eventlog_key w || install_creates_key e)%bool /\
  os_service wi = (os_service w || install_creates_service e)%bool /\
  os_service wr = (os_service w && negb (remove_deletes_service e))%bool /\
  os_eventlog_key wr = (os_eventlog_key w && negb (remove_deletes_key e))%bool /\
  (install_creates_key e = true -> install_creates_service e = false ->
   os_service w = false ->
   fst (SvcInstall e w) = Exited EXIT_FAILURE /\
   os_eventlog_key wi = true /\ os_service wi = false) /\
  (remove_deletes_service e = true -> remove_deletes_key e = false ->
   os_eventlog_key w = true ->
   fst (SvcRemove e w) = Exited EXIT_FAILURE /\
   os_eventlog_key wr = true /\ os_service wr = false).
Proof.
  intros Hlogged. cbv zeta. unfold service_has_eventlog in *.
  unfold install_creates_service, install_writes_values, install_creates_key,
    remove_deletes_key, remove_deletes_service, install_registrations,
    remove_registrations.
  destruct w as [st sh stop dv cp key svc cs]. cbn in Hlogged.
  repeat match goal with |- _ /\ _ => split end.
  - command_cases.
    all: try discriminate.
    all: rewrite <- ?app_assoc; cbn [app].
    all: eexists; (split; [reflexivity|]).
    all: cbn; rewrite ?eventlog_key_is_itself; reflexivity.
  - command_cases.
    all: try discriminate.
    all: rewrite <- ?app_assoc; cbn [app].
    all: eexists; (split; [reflexivity|]); reflexivity.
  - destruct svc, key; try discriminate; command_cases;
      try discriminate; reflexivity.
  - destruct svc, key; try discriminate; command_cases;
      try discriminate; reflexivity.
  - command_cases; try discriminate; try reflexivity. split; reflexivity.
  - command_cases; try discriminate; try reflexivity. split; reflexivity.
  - command_cases.
    all: try discriminate.
    all: rewrite <- ?app_assoc; cbn [app].
    all: first
      [ solve [ eexists; exists EmptyString; eexists;
                (split; [reflexivity|]);
                cbn [filter registration_call app];
                (split; [reflexivity|]); reflexivity || exact I ]
      | solve [ do 3 eexists; (split; [reflexivity|]);
                cbn [filter registration_call app];
                (split; [reflexivity|]); reflexivity || exact I ] ].
  - command_cases.
    all: try discriminate.
    all: rewrite <- ?app_assoc; cbn [app].
    all: do 2 eexists; (split; [reflexivity|]);
      cbn [filter registration_call app];
      (split; [reflexivity|]); reflexivity || exact I.
  - destruct svc, key; command_cases; try discriminate; reflexivity.
  - destruct svc, key; command_cases; try discriminate; reflexivity.
  - destruct svc, key; command_cases; try discriminate; reflexivity.
  - destruct svc, key; command_cases; try discriminate; reflexivity.
  - cbn. intros Hkey Hservice ->. revert Hkey Hservice.
    command_cases; try discriminate; intros; try discriminate;
      repeat split.
  - cbn. intros Hservice Hkey ->. revert Hservice Hkey.
    command_cases; try discriminate; intros; try discriminate;
      repeat split.
Qed.

(** An install whose [CreateService] fails and a remove whose
    [RegDeleteKey] fails, on a machine where the service is installed:
    both stop half way, and the service registration that is left has
    its event-log entry. *)
Lemma install_remove_keep_service_logged_witness :
  let e := scripted_registry 11 NULL 5 in
  service_has_eventlog installed_world = true /\
  service_has_eventlog (snd (SvcInstall e installed_world)) = true /\
  service_has_eventlog (snd (SvcRemove e installed_world)) = true /\
  fst (SvcInstall e installed_world) = Exited EXIT_FAILURE /\
  fst (SvcRemove e installed_world) = Exited EXIT_FAILURE /\
  os_service (snd (SvcRemove e installed_world)) = false /\
  os_eventlog_key (snd (SvcRemove e installed_world)) = true.
Proof.
  cbv zeta.
  destruct (install_remove_keep_service_logged (scripted_registry 11 NULL 5)
              installed_world)
    as (_ & _ & Hi & Hr & _ & _ & _ & _ & _ & _ & Hservice & Hkey & _ & Horphan).
  - reflexivity.
  - split; [reflexivity|]. split; [exact Hi|]. split; [exact Hr|].
    split; [vm_compute; reflexivity|].
    destruct Horphan as (Hexit & Hk & Hs); try reflexivity.
    repeat split; assumption.
Defined.

(** C7, the claim as written fails: on a machine with neither
    registration, an install whose [CreateService] fails exits with the
    event-log key created and no service registered. *)
Lemma install_failure_orphans_eventlog_key :
  let r := SvcInstall (scripted 7 NULL 0 []) init_world in
  eventlog_has_service init_world = true /\
  fst r = Exited EXIT_FAILURE /\
  os_eventlog_key (snd r) = true /\
  os_service (snd r) = false /\
  eventlog_has_service (snd r) = false.
Proof.
  cbv zeta. repeat split; vm_compute; reflexivity.
Qed.

(** The same when the service manager cannot be opened. *)
Lemma install_without_manager_orphans_eventlog_key :
  let r := SvcInstall (scripted_registry NULL 13 0) init_world in
  fst r = Exited EXIT_FAILURE /\
  os_eventlog_key (snd r) = true /\
  os_service (snd r) = false /\
  eventlog_has_service (snd r) = false.
Proof.
  cbv zeta. repeat split; vm_compute; reflexivity.
Qed.

(** On a machine where the service is installed, a remove whose
    [RegDeleteKey] fails exits with the service registration deleted and
    the event-log key still there. *)
Lemma remove_failure_orphans_eventlog_key :
  let r := SvcRemove (scripted_registry 11 13 5) installed_world in
  eventlog_has_service installed_world = true /\
  fst r = Exited EXIT_FAILURE /\
  os_eventlog_key (snd r) = true /\
  os_service (snd r) = false /\
  eventlog_has_service (snd r) = false.
Proof.
  cbv zeta. repeat split; vm_compute; reflexivity.
Qed.

(** ** The command dispatcher *)

Lemma compare_same (s : string) : String.compare s s = Eq.
Proof.
  pose proof (String.compare_antisym s s) as H.
  destruct (String.compare s s); [reflexivity|discriminate|discriminate].
Qed.

(** [lstrcmpi] answers zero when the two strings agree up to the case
    of their letters. *)
Lemma lstrcmpi_zero (a b : string) :
  (lstrcmpi a b =? 0) = String.eqb (lower a) (lower b).
Proof.
  unfold lstrcmpi.
  destruct (String.eqb_spec (lower a) (lower b)) as [Heq|Hneq].
  - rewrite Heq, compare_same. reflexivity.
  - destruct (String.compare (lower a) (lower b)) eqn:Hcmp;
      [|reflexivity|reflexivity].
    apply String.compare_eq_iff in Hcmp. contradiction.
Qed.









(** * Further properties *)

(** ** The reports of a service run *)

Lemma SvcMain_extends (e : env) (dwArgc : DWORD) (lpszArgv : list string)
      (w : world) :
  exists ext, calls (snd (SvcMain e dwArgc lpszArgv w)) = calls w ++ ext.
Proof.
  startup_cases.
  all: rewrite <- ?app_assoc; cbn [app]; eexists; reflexivity.
Qed.

(** X1.  When the control handler is registered and [SvcMain] returns,
    its status reports end with the one [STOPPED] report, and the exit
    code of that report is zero exactly when [RUNNING] was reported
    before it.  While the run loop turns nothing is [STOPPED]; [SvcMain]
    never ends the process. *)
Theorem SvcMain_stops_once (e : env) (dwArgc : DWORD) (lpszArgv : list string) :
  o_RegisterServiceCtrlHandler e <> NULL ->
  let r := SvcMain e dwArgc lpszArgv init_world in
  match fst r with
  | Ret _ => stops_once_at_the_end (statuses_of (calls (snd r)))
  | Pending =>
      existsb is_stopped_report (calls (snd r)) = false /\
      existsb is_running_report (calls (snd r)) = true
  | Exited _ => False
  end.
Proof.
  intros Hreg. apply Z.eqb_neq in Hreg. cbv zeta.
  unfold stops_once_at_the_end.
  startup_cases; try discriminate.
  all: rewrite <- ?app_assoc; cbn [app].
  all: try match goal with H : Forall _ ?x |- _ =>
         pose proof (loop_calls_no_status _ H) as Hst;
         pose proof (loop_calls_no_stopped _ H) as Hns
       end.
  all: try (split; cbn; rewrite ?Hns; reflexivity).
  all: rewrite ?app_comm_cons, ?statuses_of_app; cbn; rewrite ?Hst; cbn.
  all: do 2 eexists; (split; [find_tail|]); repeat split.
Qed.

Lemma SvcMain_stops_once_witness :
  stops_once_at_the_end
    (statuses_of
       (calls (snd (SvcMain (scripted 7 13 0 [WAIT_TIMEOUT]) 1 ["Stubby"]
                            init_world)))).
Proof.
  assert (Hreg : o_RegisterServiceCtrlHandler (scripted 7 13 0 [WAIT_TIMEOUT])
                 <> NULL) by discriminate.
  pose proof (SvcMain_stops_once (scripted 7 13 0 [WAIT_TIMEOUT]) 1
                ["Stubby"] Hreg) as Hrun.
  cbv zeta in Hrun.
  replace (fst (SvcMain (scripted 7 13 0 [WAIT_TIMEOUT]) 1 ["Stubby"]
                        init_world))
    with (@Ret unit tt) in Hrun by (vm_compute; reflexivity).
  exact Hrun.
Defined.

(** X2.  Every status record [SvcMain] reports is well formed: its
    service type is [SERVICE_WIN32_OWN_PROCESS], its service-specific
    exit code is zero, it accepts no control in [START_PENDING] and the
    stop control in every other state, and its exit code is non-zero
    only when the state is [STOPPED].  The same holds of the report the
    control handler makes on a stop request that arrives afterwards. *)
Theorem SvcMain_reports_well_formed (e : env) (dwArgc : DWORD)
        (lpszArgv : list string) (w : world) :
  let w' := snd (SvcMain e dwArgc lpszArgv w) in
  (exists ext,
      calls w' = calls w ++ ext /\
      Forall well_formed_status (statuses_of ext)) /\
  (if o_RegisterServiceCtrlHandler e =? NULL then True
   else well_formed_status
          (gSvcStatus (snd (SvcCtrlHandler SERVICE_CONTROL_STOP w')))).
Proof.
  cbv zeta. unfold well_formed_status. split.
  - startup_cases.
    all: rewrite <- ?app_assoc; cbn [app].
    all: eexists; (split; [reflexivity|]).
    all: try match goal with H : Forall _ ?x |- _ =>
           rewrite ?app_comm_cons, ?statuses_of_app;
           cbn; rewrite (loop_calls_no_status _ H)
         end.
    all: cbn; repeat constructor; cbn; intros; congruence.
  - startup_cases; try exact I.
    all: repeat split; intros; congruence.
Qed.

(** X3.  When the control handler cannot be registered, [SvcMain]
    logs the error and returns: it reports no status, creates no stop
    event and calls nothing of the resolution engine. *)
Theorem SvcMain_without_handler (e : env) (dwArgc : DWORD)
        (lpszArgv : list string) (w : world) :
  o_RegisterServiceCtrlHandler e = NULL ->
  SvcMain e dwArgc lpszArgv w =
    (Ret tt,
     set_gSvcStatusHandle NULL
       (set_calls
          (calls w ++
           [Cstubby_set_log_funcs; CRegisterServiceCtrlHandler SVCNAME;
            CGetLastError; CFormatMessage (o_GetLastError e);
            Cstubby_error
              (fst (winerr_text e "RegisterServiceCtrlHandler"
                                (o_GetLastError e)))
              (snd (winerr_text e "RegisterServiceCtrlHandler"
                                (o_GetLastError e)))]) w)).
Proof.
  intros Hnull. unfold SvcMain, external, bind, get, modify, do_call, ret.
  run_cbn. rewrite Hnull. run_cbn. rewrite report_winerr_run.
  destruct w; unfold log, set_calls, set_gSvcStatusHandle; cbn.
  rewrite <- !app_assoc. reflexivity.
Qed.

Lemma SvcMain_without_handler_witness :
  fst (SvcMain (mkEnv 5 (fun _ => None) 7 true (fun _ => 0) (fun _ => 0) 0
                      "stubby.exe" 11 13 13 true true true NULL 19 (0, 23)
                      (1, 1) 1 (0, 29) []) 1 ["Stubby"] init_world) = Ret tt.
Proof.
  rewrite (SvcMain_without_handler
             (mkEnv 5 (fun _ => None) 7 true (fun _ => 0) (fun _ => 0) 0
                    "stubby.exe" 11 13 13 true true true NULL 19 (0, 23)
                    (1, 1) 1 (0, 29) []) 1 ["Stubby"] init_world eq_refl).
  reflexivity.
Defined.

(** ** The stop event *)

(** X4.  The stop event is closed exactly when it was created: whenever
    [SvcInit] returns, the handle [CreateEvent] answered, if it is not
    null, has been closed once, nothing else has been closed, and the
    global handle is null again; while the run loop turns the event is
    open and the global holds it.  [SvcInit] never ends the process. *)
Theorem SvcInit_stop_event_lifetime (e : env) (dwArgc : DWORD)
        (lpszArgv : list string) (w : world) :
  let r := SvcInit e dwArgc lpszArgv w in
  exists ext,
    calls (snd r) = calls w ++ ext /\
    count_calls is_create_event ext = 1%nat /\
    match fst r with
    | Ret _ =>
        filter is_close_handle ext =
          (if o_CreateEvent e =? NULL then []
           else [CCloseHandle (o_CreateEvent e)]) /\
        ghSvcStopEvent (snd r) = NULL
    | Pending =>
        filter is_close_handle ext = [] /\
        ghSvcStopEvent (snd r) = o_CreateEvent e /\
        o_CreateEvent e <> NULL
    | Exited _ => False
    end.
Proof.
  cbv zeta. unfold count_calls. startup_cases.
  all: rewrite <- ?app_assoc; cbn [app].
  all: eexists; (split; [reflexivity|]).
  all: try match goal with H : Forall _ ?x |- _ =>
         assert (Hnc : filter is_close_handle x = [])
           by (clear - H; induction H as [|c l Hc _ IH]; [reflexivity|];
               destruct c; try discriminate; exact IH);
         assert (Hne : filter is_create_event x = [])
           by (clear - H; induction H as [|c l Hc _ IH]; [reflexivity|];
               destruct c; try discriminate; exact IH);
         rewrite ?app_comm_cons, ?filter_app; cbn;
         rewrite ?filter_app, ?Hnc, ?Hne
       end.
  all: cbn; repeat split; try reflexivity.
  all: try (apply Z.eqb_eq; assumption).
  all: try (apply Z.eqb_neq; assumption).
Qed.

(** ** The passes of the run loop *)

(** X5.  The run loop polls before every engine iteration: its polls
    and iterations alternate, one pair per leading [WAIT_OBJECT_0]
    answer, followed by the poll on which it leaves.  Every poll is on
    the stop event with a zero timeout, every iteration is
    [run_once (eventloop, 1)], and the loop does not touch the handle
    of the stop event. *)
Theorem run_loop_alternates (e : env) (eventloop : Z) (polls : list DWORD) :
  forall w,
    let r := run_loop e eventloop 1 polls w in
    let poll := CWaitForSingleObject (ghSvcStopEvent w) 0 in
    exists ext,
      calls (snd r) = calls w ++ ext /\
      filter is_poll_or_iteration ext =
        List.concat (repeat [poll; Crun_once eventloop 1] (leading_signaled polls))
        ++ (if loop_leaves polls then [poll] else []) /\
      ghSvcStopEvent (snd r) = ghSvcStopEvent w.
Proof.
  unfold loop_leaves.
  induction polls as [|answer polls IH]; intros w; cbv zeta.
  - exists []. cbn. rewrite app_nil_r. repeat split.
  - cbn [run_loop forallb leading_signaled].
    unfold poll_switch, bind, get, do_call, modify, ret.
    destruct (answer =? WAIT_OBJECT_0) eqn:Hsig.
    + cbn.
      match goal with |- context [run_loop e eventloop 1 polls ?w1] =>
        destruct (IH w1) as (ext & Hcalls & Hfilter & Hstop) end.
      cbn in Hcalls, Hfilter, Hstop.
      exists (CWaitForSingleObject (ghSvcStopEvent w) 0
              :: Crun_once eventloop 1 :: ext).
      rewrite Hcalls, Hstop. split; [|split; [|reflexivity]].
      * rewrite <- !app_assoc. reflexivity.
      * cbn. rewrite Hfilter. reflexivity.
    + destruct (answer =? WAIT_FAILED); run_cbn.
      * rewrite report_winerr_run. run_cbn.
        eexists [_; _; _; _]. split; [|split; [|reflexivity]].
        -- rewrite <- !app_assoc. reflexivity.
        -- reflexivity.
      * eexists [_; _]. split; [|split; [|reflexivity]].
        -- rewrite <- !app_assoc. reflexivity.
        -- reflexivity.
Qed.

(** X6.  [SvcMain] reports [RUNNING] exactly when the control handler
    is registered and every startup checkpoint succeeds, and it runs no
    engine iteration before that report. *)
Theorem SvcMain_runs_after_RUNNING (e : env) (dwArgc : DWORD)
        (lpszArgv : list string) (w : world) :
  exists ext,
    calls (snd (SvcMain e dwArgc lpszArgv w)) = calls w ++ ext /\
    existsb is_running_report ext =
      (if o_RegisterServiceCtrlHandler e =? NULL then false
       else match startup_of e with Started => true | _ => false end) /\
    first_comes is_running_report is_run_once ext = true.
Proof.
  startup_cases.
  all: rewrite <- ?app_assoc; cbn [app].
  all: eexists; (split; [reflexivity|]).
  all: try match goal with H : Forall _ ?x |- _ =>
         assert (Hnr : existsb is_running_report x = false)
           by (clear - H; induction H as [|c l Hc _ IH]; [reflexivity|];
               destruct c; try discriminate; exact IH)
       end.
  all: cbn; split; reflexivity.
Qed.

(** ** The log level, from the start command to the service *)






(** ** Handles of the service manager and of the registry *)


(** X9.  The registry key that [createRegistryEntries] and
    [deleteRegistryEntries] open is closed once on every path on which
    it was opened, whichever later registry call fails, and never
    otherwise. *)
Theorem registry_key_closed (e : env) (path : string) (w : world) :
  (exists ext,
      calls (snd (createRegistryEntries e path w)) = calls w ++ ext /\
      filter is_reg_close_key ext =
        if o_RegCreateKeyEx e eventlog_key =? ERROR_SUCCESS
        then [CRegCloseKey] else []) /\
  (exists ext,
      calls (snd (deleteRegistryEntries e w)) = calls w ++ ext /\
      filter is_reg_close_key ext =
        if o_RegCreateKeyEx e eventlog_application =? ERROR_SUCCESS
        then [CRegCloseKey] else []).
Proof.
  split.
  all: command_cases; try discriminate.
  all: rewrite <- ?app_assoc; cbn [app].
  all: eexists; split; reflexivity.
Qed.

(** ** What the commands write and send *)


(** X11.  For the service token the process exits with success whether
    or not the control dispatcher could be started: a failure of
    [StartServiceCtrlDispatcher] is logged through [stubby_error] and
    nothing else is done about it. *)
Theorem service_command_always_succeeds (e : env) (arg : string)
        (loglevel : Z) (w : world) :
  lower arg = "service" ->
  let r := windows_service_command e arg loglevel w in
  fst r = Exited EXIT_SUCCESS /\
  calls (snd r) =
    calls w ++
    CStartServiceCtrlDispatcher SVCNAME ::
    (if o_StartServiceCtrlDispatcher e then []
     else [CGetLastError; CFormatMessage (o_GetLastError e);
           Cstubby_error
             (fst (winerr_text e "StartServiceCtrlDispatcher"
                               (o_GetLastError e)))
             (snd (winerr_text e "StartServiceCtrlDispatcher"
                               (o_GetLastError e)))]).
Proof.
  intros Harg. cbv zeta. unfold windows_service_command.
  rewrite !lstrcmpi_zero, Harg.
  change (lower "install") with "install".
  change (lower "remove") with "remove".
  change (lower "service") with "service".
  cbn [String.eqb Ascii.eqb Bool.eqb andb].
  command_cases.
  all: rewrite <- ?app_assoc; cbn [app]; split; reflexivity.
Qed.

Lemma service_command_always_succeeds_witness :
  let e := mkEnv 5 (fun _ => None) 7 false (fun _ => 0) (fun _ => 0) 0
                 "stubby.exe" 11 13 13 true true true 17 19 (0, 23) (1, 1) 1
                 (0, 29) [] in
  fst (windows_service_command e "Service" 0 init_world) =
    Exited EXIT_SUCCESS.
Proof.
  cbv zeta.
  apply (service_command_always_succeeds
           (mkEnv 5 (fun _ => None) 7 false (fun _ => 0) (fun _ => 0) 0
                  "stubby.exe" 11 13 13 true true true 17 19 (0, 23) (1, 1) 1
                  (0, 29) []) "Service" 0 init_world).
  reflexivity.
Defined.

(** X12.  The control code [SvcStop] sends is one the control handler
    of the service acts on.  When the service can be opened, [SvcStop]
    sends exactly one control, and delivered to [SvcCtrlHandler] in any
    state that control makes the handler report [STOP_PENDING] and set
    the stop event; when the service cannot be opened nothing is
    sent. *)
Theorem stop_command_reaches_handler (e : env) (w : world) :
  exists ext,
    calls (snd (SvcStop e w)) = calls w ++ ext /\
    controls_sent ext =
      (if o_OpenSCManager e =? NULL then []
       else if o_OpenService e =? NULL then []
       else [SERVICE_CONTROL_STOP]) /\
    Forall
      (fun code =>
         forall w', exists st,
           calls (snd (SvcCtrlHandler code w')) =
             calls w' ++ [CSetServiceStatus (gSvcStatusHandle w') st;
                          CSetEvent (ghSvcStopEvent w')] /\
           dwCurrentState st = SERVICE_STOP_PENDING)
      (controls_sent ext).
Proof.
  command_cases; try discriminate.
  all: rewrite <- ?app_assoc; cbn [app].
  all: eexists; (split; [reflexivity|]); (split; [reflexivity|]).
  all: cbn [controls_sent]; repeat constructor.
  all: intros w'; eexists; cbn; rewrite <- app_assoc; split; reflexivity.
Qed.

(** ** The message of an event *)

Lemma substring_length (s : string) :
  forall m, String.length (substring 0 m s) = Nat.min m (String.length s).
Proof.
  induction s as [|c s IH]; intros [|m]; cbn; try reflexivity.
  rewrite IH. reflexivity.
Qed.

Lemma substring_prefix (s : string) :
  forall m, exists rest, s = (substring 0 m s ++ rest)%string.
Proof.
  induction s as [|c s IH]; intros [|m]; cbn.
  - exists EmptyString. reflexivity.
  - exists EmptyString. reflexivity.
  - exists (String c s). reflexivity.
  - destruct (IH m) as [rest Hrest]. exists rest.
    rewrite <- Hrest. reflexivity.
Qed.

Lemma substring_whole (s : string) :
  forall m, (String.length s <= m)%nat -> substring 0 m s = s.
Proof.
  induction s as [|c s IH]; intros [|m] Hlen; cbn in *;
    try reflexivity; try lia.
  rewrite IH by lia. reflexivity.
Qed.

(** X13.  The message of an event is the expansion of the format cut
    to the 255 characters the buffer holds: it is a beginning of the
    expansion, never longer than 255 characters, and the expansion
    itself when that is short enough.  The event carries two strings,
    the service name and the message, in category 0, and the event
    source is released after the event is reported. *)
Theorem report_verror_message (ids : event_ids) (e : env) (level : Z)
        (expansion : string) (w : world) :
  o_RegisterEventSource e <> NULL ->
  let h := o_RegisterEventSource e in
  exists buf,
    calls (snd (report_verror ids e level expansion w)) =
      calls w ++
      [CRegisterEventSource SVCNAME;
       CReportEvent h (fst (event_of_level ids level)) 0
                    (snd (event_of_level ids level)) [SVCNAME; buf];
       CDeregisterEventSource h] /\
    strlen buf <= 255 /\
    (exists rest, expansion = (buf ++ rest)%string) /\
    (strlen expansion <= 255 -> buf = expansion).
Proof.
  intros Hsource. cbv zeta. apply Z.eqb_neq in Hsource.
  exists (snprintf 256 expansion). split; [|split; [|split]].
  - unfold report_verror, external, bind, do_call, modify, ret. run_cbn.
    rewrite Hsource. destruct (event_of_level ids level). run_cbn.
    rewrite <- !app_assoc. reflexivity.
  - unfold snprintf, strlen. rewrite substring_length.
    change (Z.to_nat (256 - 1)) with 255%nat. lia.
  - unfold snprintf. apply substring_prefix.
  - unfold snprintf, strlen. intros Hshort. apply substring_whole.
    change (Z.to_nat (256 - 1)) with 255%nat. lia.
Qed.

Lemma report_verror_message_witness :
  exists buf,
    calls (snd (report_verror (mkIds 1 2 3 4 5 6 7 8) (scripted 7 13 0 [])
                              GETDNS_LOG_INFO "started" init_world)) =
      calls init_world ++
      [CRegisterEventSource SVCNAME;
       CReportEvent 7 EVENTLOG_INFORMATION_TYPE 0 7 [SVCNAME; buf];
       CDeregisterEventSource 7] /\
    strlen buf <= 255 /\
    (exists rest, "started" = (buf ++ rest)%string) /\
    (strlen "started" <= 255 -> buf = "started").
Proof.
  apply (report_verror_message (mkIds 1 2 3 4 5 6 7 8) (scripted 7 13 0 [])
           GETDNS_LOG_INFO "started" init_world).
  discriminate.
Defined.

(** ** The event types the installer declares *)

(** X14.  The mask [createRegistryEntries] writes under
    [TypesSupported] covers every event type the bridge can report:
    whatever the severity, the type [event_of_level] chooses is within
    the mask.  The mask is written once when the entries are created
    in full. *)
Theorem declared_types_cover_events (e : env) (path : string) (w : world) :
  let r := createRegistryEntries e path w in
  exists ext,
    calls (snd r) = calls w ++ ext /\
    Forall (fun mask =>
              forall ids level,
                Z.land (fst (event_of_level ids level)) mask =
                fst (event_of_level ids level))
           (types_supported ext) /\
    match fst r with
    | Ret _ => List.length (types_supported ext) = 1%nat
    | _ => True
    end.
Proof.
  cbv zeta. command_cases; try discriminate.
  all: rewrite <- ?app_assoc; cbn [app].
  all: eexists; (split; [reflexivity|]).
  all: cbn [types_supported String.eqb Ascii.eqb Bool.eqb andb].
  all: split; [|reflexivity || exact I].
  all: repeat constructor.
  all: intros ids level; unfold event_of_level;
    repeat match goal with
           | |- context [level =? ?k] => destruct (level =? k)
           end; reflexivity.
Qed.

(** ** The resolution context *)

Lemma unused_after_destroy_loop (ext tail : list call) :
  Forall (fun c => loop_call c = true) ext ->
  unused_after_destroy (ext ++ tail) = unused_after_destroy tail.
Proof.
  induction 1 as [|c ext Hc _ IH]; [reflexivity|].
  destruct c; try discriminate; exact IH.
Qed.

Lemma destroy_not_in_loop (ext tail : list call) :
  Forall (fun c => loop_call c = true) ext ->
  filter is_context_destroy (ext ++ tail) = filter is_context_destroy tail.
Proof.
  induction 1 as [|c ext Hc _ IH]; [reflexivity|].
  destruct c; try discriminate; exact IH.
Qed.

(** X15.  The resolution context is used only while it exists.  In
    every run of [SvcInit] no call takes the context before
    [getdns_context_create] was called and none after
    [getdns_context_destroy]; and when [SvcInit] returns, the context
    has been destroyed once if it was created and not at all
    otherwise. *)
Theorem context_used_while_alive (e : env) (dwArgc : DWORD)
        (lpszArgv : list string) (w : world) :
  let r := SvcInit e dwArgc lpszArgv w in
  exists ext,
    calls (snd r) = calls w ++ ext /\
    first_comes is_context_create uses_context ext = true /\
    unused_after_destroy ext = true /\
    match fst r with
    | Ret _ =>
        filter is_context_destroy ext =
          if o_CreateEvent e =? NULL then []
          else if fst (o_getdns_context_create e) =? 0
               then [Cgetdns_context_destroy (snd (o_getdns_context_create e))]
               else []
    | Pending => filter is_context_destroy ext = []
    | Exited _ => False
    end.
Proof.
  cbv zeta. startup_cases.
  all: rewrite <- ?app_assoc; cbn [app].
  all: eexists; (split; [reflexivity|]).
  all: try match goal with H : Forall _ ?x |- _ =>
         pose proof (unused_after_destroy_loop x) as Hquiet;
         pose proof (destroy_not_in_loop x) as Hdestroy;
         specialize (fun t => Hquiet t H);
         specialize (fun t => Hdestroy t H)
       end.
  all: split; [reflexivity|].
  all: cbn [unused_after_destroy filter is_context_destroy];
    rewrite ?Hquiet, ?Hdestroy;
    try (specialize (Hquiet []); specialize (Hdestroy []);
         rewrite app_nil_r in Hquiet, Hdestroy; rewrite ?Hquiet, ?Hdestroy).
  all: split; reflexivity.
Qed.
